(** * Appointment management API: validation gate, create workflow, read path
      and schema initialisation, embedded from [routes/appointments.js] and
      [database/db.js]. *)

From Stdlib Require Import ZArith QArith Bool List String Ascii Lia.
From Stdlib Require Import Sorting.Sorted Sorting.Permutation.
From Stdlib Require Import Numbers.DecimalString.
From Stdlib Require Numbers.DecimalPos.
Import ListNotations.

Local Open Scope string_scope.
Local Open Scope Z_scope.

Set Implicit Arguments.

(** ** JavaScript values met in a request body

    A JSON body field is absent ([VUndefined]), [null], a boolean, a number
    or a string.  [VInt z] stands for an integer-valued JSON number; strings
    are sequences of code units below 256.  Arrays, nested objects and
    fractional numbers are not represented. *)

Inductive value : Type :=
| VUndefined
| VNull
| VBool (b : bool)
| VInt (z : Z)
| VStr (s : string).

Definition string_of_Z (z : Z) : string := NilZero.string_of_int (Z.to_int z).

(** [String(v)] as used by a template literal. *)
Definition js_String (v : value) : string :=
  match v with
  | VUndefined => "undefined"
  | VNull => "null"
  | VBool true => "true"
  | VBool false => "false"
  | VInt z => string_of_Z z
  | VStr s => s
  end.

(** express-validator's [toString]: what a standard validator or sanitizer
    receives.  [null] and [undefined] become the empty string. *)
Definition toString (v : value) : string :=
  match v with
  | VUndefined | VNull => ""
  | _ => js_String v
  end.

(** ** Regular expressions

    The patterns of the source use character classes, sequencing,
    alternation, [?] and [+]; they are anchored at both ends, so a test is a
    match of the whole text. *)

Module Regex.

Inductive regex : Type :=
| Void
| Eps
| Class (ranges : list (ascii * ascii))
| Seq (r1 r2 : regex)
| Alt (r1 r2 : regex)
| Star (r : regex).

Definition Opt (r : regex) : regex := Alt r Eps.
Definition Plus (r : regex) : regex := Seq r (Star r).
Definition Chr (c : ascii) : regex := Class [(c, c)].
Definition Range (lo hi : ascii) : regex := Class [(lo, hi)].

Definition in_range (c : ascii) (r : ascii * ascii) : bool :=
  (N_of_ascii (fst r) <=? N_of_ascii c)%N && (N_of_ascii c <=? N_of_ascii (snd r))%N.

Definition in_class (c : ascii) (ranges : list (ascii * ascii)) : bool :=
  existsb (in_range c) ranges.

Fixpoint nullable (r : regex) : bool :=
  match r with
  | Void => false
  | Eps => true
  | Class _ => false
  | Seq r1 r2 => nullable r1 && nullable r2
  | Alt r1 r2 => nullable r1 || nullable r2
  | Star _ => true
  end.

Fixpoint deriv (c : ascii) (r : regex) : regex :=
  match r with
  | Void => Void
  | Eps => Void
  | Class rs => if in_class c rs then Eps else Void
  | Seq r1 r2 =>
      if nullable r1 then Alt (Seq (deriv c r1) r2) (deriv c r2)
      else Seq (deriv c r1) r2
  | Alt r1 r2 => Alt (deriv c r1) (deriv c r2)
  | Star r1 => Seq (deriv c r1) (Star r1)
  end.

(** [test r s]: does the whole of [s] match [r] ([/^r$/.test(s)]). *)
Fixpoint test (r : regex) (s : string) : bool :=
  match s with
  | EmptyString => nullable r
  | String c s' => test (deriv c r) s'
  end.

(** The language of a pattern, as a relation. *)
Inductive Matches : regex -> string -> Prop :=
| MEps : Matches Eps ""
| MClass rs c : in_class c rs = true -> Matches (Class rs) (String c "")
| MSeq r1 r2 s1 s2 : Matches r1 s1 -> Matches r2 s2 -> Matches (Seq r1 r2) (s1 ++ s2)
| MAltL r1 r2 s : Matches r1 s -> Matches (Alt r1 r2) s
| MAltR r1 r2 s : Matches r2 s -> Matches (Alt r1 r2) s
| MStar0 r : Matches (Star r) ""
| MStarS r s1 s2 : Matches r s1 -> Matches (Star r) s2 -> Matches (Star r) (s1 ++ s2).

End Regex.
Import Regex.

(** ** validator.js functions used by the route

    These are the library's validators at the options the route passes. *)

(** [isInt(str, {min: 1})]: the text is an optionally signed run of digits
    ([/^[-+]?[0-9]+$/], leading zeroes allowed) and [str >= 1] holds after
    numeric coercion. *)
Definition intLeadingZeroes : regex :=
  Seq (Opt (Class [("-", "-"); ("+", "+")]%char)) (Plus (Range "0" "9")).

Definition digit_val (c : ascii) : option Z :=
  let n := Z.of_N (N_of_ascii c) in
  if (48 <=? n) && (n <=? 57) then Some (n - 48) else None.

Fixpoint digits_val (acc : Z) (s : string) : option Z :=
  match s with
  | EmptyString => Some acc
  | String c s' =>
      match digit_val c with
      | Some d => digits_val (10 * acc + d) s'
      | None => None
      end
  end.

(** Value of a non-empty run of decimal digits. *)
Definition unsigned_of_string (s : string) : option Z :=
  match s with
  | EmptyString => None
  | _ => digits_val 0 s
  end.

(** Numeric coercion of an integer text: an optional sign and digits.  Any
    other text is outside the integer fragment and yields [None]. *)
Definition int_of_string (s : string) : option Z :=
  match s with
  | String "-" s' => option_map Z.opp (unsigned_of_string s')
  | String "+" s' => unsigned_of_string s'
  | _ => unsigned_of_string s
  end.

Definition isInt_min1 (str : string) : bool :=
  let minCheckPassed :=
    match int_of_string str with
    | Some n => 1 <=? n
    | None => false
    end in
  Regex.test intLeadingZeroes str && minCheckPassed.

(** [matches(str, /^([0-1]?[0-9]|2[0-3]):[0-5][0-9]$/)]. *)
Definition time_pattern : regex :=
  Seq (Alt (Seq (Opt (Range "0" "1")) (Range "0" "9"))
           (Seq (Chr "2") (Range "0" "3")))
      (Seq (Chr ":") (Seq (Range "0" "5") (Range "0" "9"))).

Definition matches_time (str : string) : bool := Regex.test time_pattern str.

(** [trim(str)]: strips leading and trailing white space ([\s]). *)
Definition is_space (c : ascii) : bool :=
  let n := N_of_ascii c in
  ((9 <=? n) && (n <=? 13) || (n =? 32) || (n =? 160))%N.

Fixpoint ltrim (s : string) : string :=
  match s with
  | EmptyString => EmptyString
  | String c s' => if is_space c then ltrim s' else s
  end.

Fixpoint rtrim (s : string) : string :=
  match s with
  | EmptyString => EmptyString
  | String c s' =>
      match rtrim s' with
      | EmptyString => if is_space c then EmptyString else String c EmptyString
      | t => String c t
      end
  end.

Definition trim (s : string) : string := rtrim (ltrim s).

(** [isLength(str, {min: 1, max: 500})]. *)
Definition isLength_1_500 (str : string) : bool :=
  let len := Z.of_nat (String.length str) in
  (1 <=? len) && (len <=? 500).

(** [isDate(input)] at the library's defaults: format [YYYY/MM/DD],
    delimiters ['/', '-'], strictMode off.  The delimiter is the first of the
    two that occurs in the input; the input is split on it and zipped with
    the format words; every word must be as long as its format word; the
    assembled date must exist in the calendar. *)
Module IsDate.

Definition delimiters : list ascii := ["/"; "-"]%char.
Definition format_words : list string := ["yyyy"; "mm"; "dd"].

Fixpoint includes (d : ascii) (s : string) : bool :=
  match s with
  | EmptyString => false
  | String c s' => Ascii.eqb c d || includes d s'
  end.

(** [input.split(d)] for a one-character separator. *)
Fixpoint split (d : ascii) (s : string) : list string :=
  match s with
  | EmptyString => [EmptyString]
  | String c s' =>
      if Ascii.eqb c d then EmptyString :: split d s'
      else match split d s' with
           | w :: ws => String c w :: ws
           | [] => [String c EmptyString]
           end
  end.

(** [input.split(undefined)] is the one-element array holding the input. *)
Definition split_opt (d : option ascii) (s : string) : list string :=
  match d with
  | Some c => split c s
  | None => [s]
  end.

Record dateObj : Type := { y : option string; m : option string; d : option string }.

Definition set_word (key : string) (w : string) (o : dateObj) : dateObj :=
  match key with
  | String "y" _ => {| y := Some w; m := m o; d := d o |}
  | String "m" _ => {| y := y o; m := Some w; d := d o |}
  | String "d" _ => {| y := y o; m := m o; d := Some w |}
  | _ => o
  end.

(** The loop over the zipped words; [None] is its early [return false]. *)
Fixpoint fill (pairs : list (string * string)) (o : dateObj) : option dateObj :=
  match pairs with
  | [] => Some o
  | (dateWord, formatWord) :: rest =>
      if Nat.eqb (String.length dateWord) (String.length formatWord)
      then fill rest (set_word formatWord dateWord o)
      else None
  end.

Definition is_leap (year : Z) : bool :=
  ((year mod 4 =? 0) && negb (year mod 100 =? 0)) || (year mod 400 =? 0).

Definition days_in_month (year month : Z) : Z :=
  if month =? 2 then (if is_leap year then 29 else 28)
  else if (month =? 4) || (month =? 6) || (month =? 9) || (month =? 11) then 30
  else 31.

(** [new Date(`${year}-${month}-${day}T00:00:00.000Z`).getUTCDate()];
    [None] is [NaN].  Words that are not plain digits, a month outside
    1..12 and a day the month does not have give no matching day of month
    (an engine that rolls an overlong month over reports a different day,
    so the comparison with the written day fails all the same). *)
Definition getUTCDate (year month day : string) : option Z :=
  match unsigned_of_string year, unsigned_of_string month, unsigned_of_string day with
  | Some yy, Some mm, Some dd =>
      if (1 <=? mm) && (mm <=? 12) && (1 <=? dd) && (dd <=? days_in_month yy mm)
      then Some dd else None
  | _, _, _ => None
  end.

Definition starts_with_hyphen (s : string) : bool :=
  match s with
  | String "-" _ => true
  | _ => false
  end.

Definition isDate (input : string) : bool :=
  let dateDelimiter := List.find (fun c => includes c input) delimiters in
  let dateAndFormat := List.combine (split_opt dateDelimiter input) format_words in
  match fill dateAndFormat {| y := None; m := None; d := None |} with
  | None => false
  | Some o =>
      match y o, m o, d o with
      | Some fullYear, Some month, Some day =>
          if starts_with_hyphen fullYear then false
          else match getUTCDate fullYear month day, int_of_string day with
               | Some a, Some b => a =? b
               | _, _ => false
               end
      | _, _, _ => false
      end
  end.

End IsDate.

(** ** The validation gate of [POST /]

    Four chains, run in order; each contributes at most one error.  The
    [Reason] chain first replaces the field by its trimmed text. *)

Record request_body : Type := {
  PatientId : value;
  AppointmentDate : value;
  AppointmentTime : value;
  Reason : value
}.

Record validation_error : Type := {
  err_value : value;
  err_msg : string;
  err_path : string;
  err_location : string
}.

Definition check (ok : bool) (v : value) (msg path : string) : list validation_error :=
  if ok then []
  else [{| err_value := v; err_msg := msg; err_path := path; err_location := "body" |}].

Definition PatientId_ok (b : request_body) : bool := isInt_min1 (toString (PatientId b)).
Definition AppointmentDate_ok (b : request_body) : bool :=
  IsDate.isDate (toString (AppointmentDate b)).
Definition AppointmentTime_ok (b : request_body) : bool := matches_time (toString (AppointmentTime b)).
Definition Reason_ok (b : request_body) : bool := isLength_1_500 (trim (toString (Reason b))).

(** The body after the sanitizer of the [Reason] chain has run. *)
Definition sanitize (b : request_body) : request_body :=
  {| PatientId := PatientId b;
     AppointmentDate := AppointmentDate b;
     AppointmentTime := AppointmentTime b;
     Reason := VStr (trim (toString (Reason b))) |}.

(** [validationResult(req).array()]. *)
Definition validationResult (b : request_body) : list validation_error :=
  check (PatientId_ok b) (PatientId b)
        "PatientId must be a positive integer" "PatientId"
  ++ check (AppointmentDate_ok b) (AppointmentDate b)
        "AppointmentDate must be a valid date (YYYY-MM-DD)" "AppointmentDate"
  ++ check (AppointmentTime_ok b) (AppointmentTime b)
        "AppointmentTime must be in HH:MM format" "AppointmentTime"
  ++ check (Reason_ok b) (Reason (sanitize b))
        "Reason must be between 1 and 500 characters" "Reason".

(** The details hold an entry for the field [path] with message [msg]. *)
Definition reported (details : list validation_error) (path msg : string) : Prop :=
  exists e, In e details /\ err_path e = path /\ err_msg e = msg /\ err_location e = "body".

(** ** SQLite values and comparison

    A stored or bound value is [NULL], a number or a text.  Numbers are kept
    as rationals, which covers both integers and reals. *)

Inductive sqlval : Type :=
| SNull
| SNum (q : Q)
| SText (s : string).

Definition SInt (z : Z) : sqlval := SNum (inject_Z z).

(** Parameter binding of the driver: numbers and booleans are bound as
    numbers, strings as text, [null] and [undefined] as [NULL]. *)
Definition bind_param (v : value) : sqlval :=
  match v with
  | VUndefined | VNull => SNull
  | VBool b => SInt (if b then 1 else 0)
  | VInt z => SInt z
  | VStr s => SText s
  end.

(** [a = b] in a [WHERE] or [ON] clause, once affinities are applied: true
    only for two equal numbers or two equal texts; a comparison with [NULL]
    is never true. *)
Definition sql_eq (a b : sqlval) : bool :=
  match a, b with
  | SNum x, SNum y => Qeq_bool x y
  | SText s, SText t => String.eqb s t
  | _, _ => false
  end.

(** The order used by [ORDER BY]: [NULL] first, then numbers by value, then
    texts byte by byte. *)
Definition sql_compare (a b : sqlval) : comparison :=
  match a, b with
  | SNull, SNull => Eq
  | SNull, _ => Lt
  | _, SNull => Gt
  | SNum x, SNum y => Qcompare x y
  | SNum _, SText _ => Lt
  | SText _, SNum _ => Gt
  | SText s, SText t => String.compare s t
  end.

(** A sample coercion for evaluating the model: a text that is an optionally
    signed run of digits is that integer, any other text stays text. *)
Definition integer_text (s : string) : option Q := option_map inject_Z (int_of_string s).

(** ** Tables

    [created_at] is filled by the storage clock and read by no route; it is
    left out of the rows. *)

Module Patient.
Record t : Type := {
  id : Z;
  name : string;
  email : option string;
  phone : option string
}.
End Patient.

Module Appointment.
Record t : Type := {
  id : Z;
  patient_id : sqlval;
  appointment_date : sqlval;
  appointment_time : sqlval;
  reason : sqlval;
  status : option string
}.
End Appointment.

(** A table that was never created is [None].  [seq_*] are the
    [AUTOINCREMENT] counters: the largest row id ever handed out. *)
Record database : Type := {
  patients : option (list Patient.t);
  appointments : option (list Appointment.t);
  seq_patients : Z;
  seq_appointments : Z
}.

Definition empty_database : database :=
  {| patients := None; appointments := None; seq_patients := 0; seq_appointments := 0 |}.

Definition max_id (ids : list Z) : Z := fold_right Z.max 0 ids.

(** The row id [AUTOINCREMENT] assigns: one more than the largest id ever
    used in the table. *)
Definition next_id (seq : Z) (ids : list Z) : Z := Z.max seq (max_id ids) + 1.

(** ** Storage calls and their errors *)

(** One [WHERE] condition of the list query, with its bound parameter. *)
Inductive condition : Type :=
| PatientIdEquals (param : sqlval)
| DateEquals (param : sqlval).

Inductive db_call : Type :=
| SelectPatientById (param : sqlval)
| SelectAppointmentConflict (p d t : sqlval)
| InsertAppointment (p d t r : sqlval)
| SelectAppointments (conditions : list condition)
| SelectAppointmentById (param : sqlval).

Inductive result (A : Type) : Type :=
| Ok (a : A)
| Err (e : string).
Arguments Ok {A} a.
Arguments Err {A} e.

(** What a request handler sees: the database and the storage calls issued
    so far, oldest first. *)
Record world : Type := { db : database; log : list db_call }.

(** The world after further storage calls that left the database as it was. *)
Definition logged (w : world) (calls : list db_call) : world :=
  {| db := db w; log := (log w ++ calls)%list |}.

(** A handler step: it may fail (a rejected promise) and it may change the
    world; a failure keeps the world it reached. *)
Definition M (A : Type) : Type := world -> result A * world.

Definition ret {A} (a : A) : M A := fun w => (Ok a, w).

Definition bind {A B} (c : M A) (k : A -> M B) : M B :=
  fun w =>
    match c w with
    | (Ok a, w') => k a w'
    | (Err e, w') => (Err e, w')
    end.

Definition catch {A} (c : M A) (handler : string -> M A) : M A :=
  fun w =>
    match c w with
    | (Ok a, w') => (Ok a, w')
    | (Err e, w') => handler e w'
    end.

Definition record_call (c : db_call) : M unit :=
  fun w => (Ok tt, {| db := db w; log := (log w ++ [c])%list |}).

Definition read_db : M database := fun w => (Ok (db w), w).
Definition write_db (d : database) : M unit := fun w => (Ok tt, {| db := d; log := log w |}).
Definition fail {A} (e : string) : M A := fun w => (Err e, w).

Declare Scope handler_scope.
Delimit Scope handler_scope with handler.
Notation "x <- c ;; k" := (bind c (fun x => k))
  (at level 61, c at next level, right associativity) : handler_scope.
Notation "c ;; k" := (bind c (fun _ => k))
  (at level 61, right associativity) : handler_scope.

(** ** HTTP responses *)

Record list_row : Type := {
  lr_AppointmentId : Z;
  lr_PatientId : sqlval;
  lr_AppointmentDate : sqlval;
  lr_AppointmentTime : sqlval;
  lr_Reason : sqlval;
  lr_status : option string;
  lr_PatientName : string
}.

Record detail_row : Type := {
  dr_AppointmentId : Z;
  dr_PatientId : sqlval;
  dr_AppointmentDate : sqlval;
  dr_AppointmentTime : sqlval;
  dr_Reason : sqlval;
  dr_status : option string;
  dr_PatientName : string;
  dr_PatientEmail : option string;
  dr_PatientPhone : option string
}.

Inductive json : Type :=
| ValidationFailed (error : string) (details : list validation_error)
| ErrorMessage (error message : string)
| AppointmentCreated (AppointmentId : Z)
    (PatientId AppointmentDate AppointmentTime Reason : value) (Message : string)
| AppointmentRows (rows : list list_row)
| AppointmentDetails (row : detail_row).

Record response : Type := { status : Z; body : json }.

Ltac inv H := inversion H; subst; clear H.

Ltac report_cases :=
  repeat match goal with
         | |- _ /\ _ => split
         | |- _ <-> _ => split; intros
         | H : reported _ _ _ |- _ => destruct H as (? & ? & ? & ? & ?)
         | H : In _ (_ :: _) |- _ => destruct H as [<- | H]
         | H : In _ [] |- _ => destruct H
         | H : _ = _ |- _ => discriminate H
         | |- _ = _ => reflexivity
         | |- reported _ _ _ =>
             unfold reported; simpl; eauto 12
         end.

(** ** The storage engine and the routes

    [numeric_affinity s] is the coercion SQLite applies to a text that meets
    a column of [INTEGER], [DATE] or [TIME] type: [Some q] when the text
    reads as the number [q], [None] when it stays a text.  Everything below
    holds whatever this coercion is. *)

Section Service.

Variable numeric_affinity : string -> option Q.

Local Open Scope handler_scope.

(** A value as it is stored in, or compared with, a column of numeric
    affinity. *)
Definition apply_affinity (v : sqlval) : sqlval :=
  match v with
  | SText s =>
      match numeric_affinity s with
      | Some q => SNum q
      | None => SText s
      end
  | _ => v
  end.

(** A value as it is stored in a [TEXT] column: an integer is written out in
    decimal (the routes never bind a fractional number). *)
Definition text_affinity (v : sqlval) : sqlval :=
  match v with
  | SNum q => if (Qden q =? 1)%positive then SText (string_of_Z (Qnum q)) else v
  | _ => v
  end.

Definition is_null (v : sqlval) : bool :=
  match v with
  | SNull => true
  | _ => false
  end.

(** [SELECT id FROM patients WHERE id = ?] through [db.get]: the first
    matching row, if any. *)
Definition select_patient (param : sqlval) : M (option Z) :=
  record_call (SelectPatientById param) ;;
  d <- read_db ;;
  match patients d with
  | None => fail "SQLITE_ERROR: no such table: patients"
  | Some ps =>
      ret (option_map Patient.id
             (find (fun p => sql_eq (SInt (Patient.id p)) (apply_affinity param)) ps))
  end.

Definition same_slot (p d t : sqlval) (a : Appointment.t) : bool :=
  sql_eq (Appointment.patient_id a) p
  && sql_eq (Appointment.appointment_date a) d
  && sql_eq (Appointment.appointment_time a) t.

(** [SELECT id FROM appointments WHERE patient_id = ? AND appointment_date = ?
    AND appointment_time = ?] through [db.get]. *)
Definition select_conflict (p d t : sqlval) : M (option Z) :=
  record_call (SelectAppointmentConflict p d t) ;;
  s <- read_db ;;
  match appointments s with
  | None => fail "SQLITE_ERROR: no such table: appointments"
  | Some apps =>
      ret (option_map Appointment.id
             (find (same_slot (apply_affinity p) (apply_affinity d) (apply_affinity t)) apps))
  end.

(** [INSERT INTO appointments (patient_id, appointment_date, appointment_time,
    reason) VALUES (?, ?, ?, ?)] through [db.run]; yields [this.lastID].  The
    four columns are [NOT NULL]; [status] takes its default. *)
Definition insert_appointment (p d t r : sqlval) : M Z :=
  record_call (InsertAppointment p d t r) ;;
  s <- read_db ;;
  match appointments s with
  | None => fail "SQLITE_ERROR: no such table: appointments"
  | Some apps =>
      if is_null p || is_null d || is_null t || is_null r
      then fail "SQLITE_CONSTRAINT: NOT NULL constraint failed"
      else
        let lastID := next_id (seq_appointments s) (map Appointment.id apps) in
        let row := {| Appointment.id := lastID;
                      Appointment.patient_id := apply_affinity p;
                      Appointment.appointment_date := apply_affinity d;
                      Appointment.appointment_time := apply_affinity t;
                      Appointment.reason := text_affinity r;
                      Appointment.status := Some "scheduled" |} in
        write_db {| patients := patients s;
                    appointments := Some (apps ++ [row])%list;
                    seq_patients := seq_patients s;
                    seq_appointments := lastID |} ;;
        ret lastID
  end.

Definition isEmpty (errors : list validation_error) : bool :=
  match errors with
  | [] => true
  | _ => false
  end.

(** [router.post("/")]: the validation chains have run on [req_body]; the
    handler then reads the sanitized body. *)
Definition post_appointment (req_body : request_body) : M response :=
  catch
    (let errors := validationResult req_body in
     if negb (isEmpty errors) then
       ret {| status := 400; body := ValidationFailed "Validation failed" errors |}
     else
       let b := sanitize req_body in
       patient <- select_patient (bind_param (PatientId b)) ;;
       match patient with
       | None =>
           ret {| status := 404;
                  body := ErrorMessage "Patient not found"
                            ("Patient with ID " ++ js_String (PatientId b) ++ " does not exist") |}
       | Some _ =>
           existingAppointment <-
             select_conflict (bind_param (PatientId b)) (bind_param (AppointmentDate b))
                             (bind_param (AppointmentTime b)) ;;
           match existingAppointment with
           | Some _ =>
               ret {| status := 409;
                      body := ErrorMessage "Appointment conflict"
                                "Patient already has an appointment at this date and time" |}
           | None =>
               appointmentId <-
                 insert_appointment (bind_param (PatientId b)) (bind_param (AppointmentDate b))
                                    (bind_param (AppointmentTime b)) (bind_param (Reason b)) ;;
               ret {| status := 201;
                      body := AppointmentCreated appointmentId (PatientId b) (AppointmentDate b)
                                (AppointmentTime b) (Reason b) "Appointment created successfully" |}
           end
       end)
    (fun _ =>
       ret {| status := 500;
              body := ErrorMessage "Internal server error" "Failed to create appointment" |}).

(** *** Read path *)

(** [FROM appointments a JOIN patients p ON a.patient_id = p.id]: the
    appointment paired with every patient row its reference equals. *)
Definition join_patients (ps : list Patient.t) (apps : list Appointment.t)
  : list (Appointment.t * Patient.t) :=
  flat_map
    (fun a => map (fun p => (a, p))
                (filter (fun p => sql_eq (Appointment.patient_id a) (SInt (Patient.id p))) ps))
    apps.

Definition to_list_row (ap : Appointment.t * Patient.t) : list_row :=
  let (a, p) := ap in
  {| lr_AppointmentId := Appointment.id a;
     lr_PatientId := Appointment.patient_id a;
     lr_AppointmentDate := Appointment.appointment_date a;
     lr_AppointmentTime := Appointment.appointment_time a;
     lr_Reason := Appointment.reason a;
     lr_status := Appointment.status a;
     lr_PatientName := Patient.name p |}.

Definition to_detail_row (ap : Appointment.t * Patient.t) : detail_row :=
  let (a, p) := ap in
  {| dr_AppointmentId := Appointment.id a;
     dr_PatientId := Appointment.patient_id a;
     dr_AppointmentDate := Appointment.appointment_date a;
     dr_AppointmentTime := Appointment.appointment_time a;
     dr_Reason := Appointment.reason a;
     dr_status := Appointment.status a;
     dr_PatientName := Patient.name p;
     dr_PatientEmail := Patient.email p;
     dr_PatientPhone := Patient.phone p |}.

Definition holds (c : condition) (a : Appointment.t) : bool :=
  match c with
  | PatientIdEquals param => sql_eq (Appointment.patient_id a) (apply_affinity param)
  | DateEquals param => sql_eq (Appointment.appointment_date a) (apply_affinity param)
  end.

(** [ORDER BY a.appointment_date, a.appointment_time]. *)
Definition order_compare (r1 r2 : list_row) : comparison :=
  match sql_compare (lr_AppointmentDate r1) (lr_AppointmentDate r2) with
  | Eq => sql_compare (lr_AppointmentTime r1) (lr_AppointmentTime r2)
  | c => c
  end.

Definition order_leb (r1 r2 : list_row) : bool :=
  match order_compare r1 r2 with
  | Gt => false
  | _ => true
  end.

Fixpoint insert_row (r : list_row) (l : list list_row) : list list_row :=
  match l with
  | [] => [r]
  | x :: l' => if order_leb r x then r :: l else x :: insert_row r l'
  end.

(** Rows that compare equal keep their scan order. *)
Definition order_by (l : list list_row) : list list_row := fold_right insert_row [] l.

(** The list query through [db.all]: join, [WHERE] (the conditions joined by
    [AND]), [ORDER BY]. *)
Definition select_appointments (conditions : list condition) : M (list list_row) :=
  record_call (SelectAppointments conditions) ;;
  s <- read_db ;;
  match appointments s, patients s with
  | Some apps, Some ps =>
      ret (order_by
             (map to_list_row
                (filter (fun ap => forallb (fun c => holds c (fst ap)) conditions)
                   (join_patients ps apps))))
  | None, _ => fail "SQLITE_ERROR: no such table: appointments"
  | _, None => fail "SQLITE_ERROR: no such table: patients"
  end.

(** Truthiness of a query-string parameter: present and not empty. *)
Definition truthy (q : option string) : bool :=
  match q with
  | Some (String _ _) => true
  | _ => false
  end.

Definition query_text (q : option string) : string :=
  match q with
  | Some s => s
  | None => ""
  end.

(** The [conditions] and [params] arrays of [router.get("/")]. *)
Definition build_conditions (patientId date : option string) : list condition :=
  if truthy patientId || truthy date then
    ((if truthy patientId then [PatientIdEquals (SText (query_text patientId))] else [])
     ++ (if truthy date then [DateEquals (SText (query_text date))] else []))%list
  else [].

(** [router.get("/")]. *)
Definition get_appointments (patientId date : option string) : M response :=
  catch
    (rows <- select_appointments (build_conditions patientId date) ;;
     ret {| status := 200; body := AppointmentRows rows |})
    (fun _ =>
       ret {| status := 500;
              body := ErrorMessage "Internal server error" "Failed to fetch appointments" |}).

(** The lookup of [router.get("/:id")] through [db.get]: the same join,
    [WHERE a.id = ?], first row. *)
Definition select_appointment (param : sqlval) : M (option detail_row) :=
  record_call (SelectAppointmentById param) ;;
  s <- read_db ;;
  match appointments s, patients s with
  | Some apps, Some ps =>
      ret (option_map to_detail_row
             (find (fun ap => sql_eq (SInt (Appointment.id (fst ap))) (apply_affinity param))
                (join_patients ps apps)))
  | None, _ => fail "SQLITE_ERROR: no such table: appointments"
  | _, None => fail "SQLITE_ERROR: no such table: patients"
  end.

(** [router.get("/:id")]: [appointmentId] is the path segment, as text. *)
Definition get_appointment (appointmentId : string) : M response :=
  catch
    (appointment <- select_appointment (SText appointmentId) ;;
     match appointment with
     | None =>
         ret {| status := 404;
                body := ErrorMessage "Appointment not found"
                          ("Appointment with ID " ++ appointmentId ++ " does not exist") |}
     | Some row => ret {| status := 200; body := AppointmentDetails row |}
     end)
    (fun _ =>
       ret {| status := 500;
              body := ErrorMessage "Internal server error" "Failed to fetch appointment" |}).

(** *** Schema initialisation ([database/db.js]) *)

(** [CREATE TABLE [IF NOT EXISTS] patients (...)]. *)
Definition create_table_patients (if_not_exists : bool) (s : database) : result unit * database :=
  match patients s with
  | Some _ =>
      if if_not_exists then (Ok tt, s)
      else (Err "SQLITE_ERROR: table patients already exists", s)
  | None =>
      (Ok tt, {| patients := Some []; appointments := appointments s;
                 seq_patients := seq_patients s; seq_appointments := seq_appointments s |})
  end.

(** [CREATE TABLE [IF NOT EXISTS] appointments (...)]. *)
Definition create_table_appointments (if_not_exists : bool) (s : database)
  : result unit * database :=
  match appointments s with
  | Some _ =>
      if if_not_exists then (Ok tt, s)
      else (Err "SQLITE_ERROR: table appointments already exists", s)
  | None =>
      (Ok tt, {| patients := patients s; appointments := Some [];
                 seq_patients := seq_patients s; seq_appointments := seq_appointments s |})
  end.

(** [SELECT COUNT( * ) as count FROM patients]. *)
Definition count_patients (s : database) : result Z :=
  match patients s with
  | Some ps => Ok (Z.of_nat (List.length ps))
  | None => Err "SQLITE_ERROR: no such table: patients"
  end.

Definition email_taken (e : option string) (ps : list Patient.t) : bool :=
  match e with
  | None => false
  | Some x =>
      existsb (fun p => match Patient.email p with
                        | Some x' => String.eqb x x'
                        | None => false
                        end) ps
  end.

(** [INSERT INTO patients (name, email, phone) VALUES (?, ?, ?)] with no
    callback: a failure (missing table, [UNIQUE] email) changes nothing and
    is dropped. *)
Definition insert_patient (s : database) (new : string * string * string) : database :=
  let '(n, e, ph) := new in
  match patients s with
  | None => s
  | Some ps =>
      if email_taken (Some e) ps then s
      else
        let i := next_id (seq_patients s) (map Patient.id ps) in
        {| patients := Some (ps ++ [{| Patient.id := i; Patient.name := n;
                                       Patient.email := Some e; Patient.phone := Some ph |}])%list;
           appointments := appointments s;
           seq_patients := i;
           seq_appointments := seq_appointments s |}
  end.

Definition samplePatients : list (string * string * string) :=
  [ ("John Doe", "john@example.com", "555-0101");
    ("Jane Smith", "jane@example.com", "555-0102");
    ("Bob Johnson", "bob@example.com", "555-0103") ].

(** [initializeDatabase()]: the three statements run one after the other
    ([db.serialize]); the promise is rejected by the first failing
    [CREATE TABLE] and resolved otherwise. *)
Definition initializeDatabase (s : database) : result unit * database :=
  let (r1, s1) := create_table_patients true s in
  let (r2, s2) := create_table_appointments true s1 in
  let s3 :=
    match count_patients s2 with
    | Ok 0 => fold_left insert_patient samplePatients s2
    | _ => s2
    end in
  (match r1 with
   | Err e => Err e
   | Ok _ => r2
   end, s3).

(** *** Stores the service can be in

    The store after start-up on a fresh file, and after any sequence of
    create requests, each run to completion before the next. *)
Inductive reachable : database -> Prop :=
| reach_start : reachable (snd (initializeDatabase empty_database))
| reach_create (s : database) (req_body : request_body) :
    reachable s ->
    reachable (db (snd (post_appointment req_body {| db := s; log := [] |}))).



(** Every appointment refers to a patient row. *)
Definition references_resolve (ps : list Patient.t) (apps : list Appointment.t) : Prop :=
  Forall (fun a => exists p, In p ps /\ sql_eq (Appointment.patient_id a) (SInt (Patient.id p)) = true)
    apps.

Definition table (A : Type) (t : option (list A)) : list A :=
  match t with
  | Some l => l
  | None => []
  end.

(** *** Time texts: the form the specification words, and the one-digit-hour form *)

Definition two_digits (c1 c2 : ascii) (n : Z) : Prop :=
  exists a b, digit_val c1 = Some a /\ digit_val c2 = Some b /\ n = 10 * a + b.

(** [HH:MM] with HH in 00..23 and MM in 00..59. *)
Definition spec_HH_MM (s : string) : Prop :=
  exists h1 h2 m1 m2 hh mm,
    s = String h1 (String h2 (String ":" (String m1 (String m2 ""))))
    /\ two_digits h1 h2 hh /\ hh <= 23 /\ two_digits m1 m2 mm /\ mm <= 59.

(** [H:MM]: a one-digit hour, then MM in 00..59. *)
Definition shape_H_MM (s : string) : Prop :=
  exists h m1 m2 hh mm,
    s = String h (String ":" (String m1 (String m2 "")))
    /\ digit_val h = Some hh /\ two_digits m1 m2 mm /\ mm <= 59.

(** Minutes since midnight of a stored time written [H:MM] or [HH:MM]. *)
Definition minutes_of_day (v : sqlval) : option Z :=
  match v with
  | SText (String h (String c (String m1 (String m2 "")))) =>
      if Ascii.eqb c ":" then
        match digit_val h, digit_val m1, digit_val m2 with
        | Some a, Some n1, Some n2 => Some (60 * a + 10 * n1 + n2)
        | _, _, _ => None
        end
      else None
  | SText (String h1 (String h2 (String c (String m1 (String m2 ""))))) =>
      if Ascii.eqb c ":" then
        match digit_val h1, digit_val h2, digit_val m1, digit_val m2 with
        | Some a, Some b, Some n1, Some n2 => Some (60 * (10 * a + b) + 10 * n1 + n2)
        | _, _, _, _ => None
        end
      else None
  | _ => None
  end.

(** [r1] may come before [r2] under [ORDER BY appointment_date,
    appointment_time]: its stored date is smaller, or the dates compare equal
    and its stored time is not greater. *)
Definition date_then_time (r1 r2 : list_row) : Prop :=
  sql_compare (lr_AppointmentDate r1) (lr_AppointmentDate r2) = Lt
  \/ (sql_compare (lr_AppointmentDate r1) (lr_AppointmentDate r2) = Eq
      /\ sql_compare (lr_AppointmentTime r1) (lr_AppointmentTime r2) <> Gt).

(** The filter a list request asks for: every supplied, non-empty parameter
    must equal the stored column. *)
Definition wanted (patientId date : option string) (a : Appointment.t) : bool :=
  (if truthy patientId
   then sql_eq (Appointment.patient_id a) (apply_affinity (SText (query_text patientId)))
   else true)
  && (if truthy date
      then sql_eq (Appointment.appointment_date a) (apply_affinity (SText (query_text date)))
      else true).

(** *** Sample requests and stores

    The request of the README, variants of it, and the stores they lead to. *)

Definition checkup : request_body :=
  {| PatientId := VInt 1; AppointmentDate := VStr "2024-12-25";
     AppointmentTime := VStr "10:30"; Reason := VStr "Regular checkup" |}.

Definition early_checkup : request_body :=
  {| PatientId := VInt 1; AppointmentDate := VStr "2024-12-25";
     AppointmentTime := VStr "9:30"; Reason := VStr "Regular checkup" |}.

Definition slashed_checkup : request_body :=
  {| PatientId := VInt 1; AppointmentDate := VStr "2024/12/25";
     AppointmentTime := VStr "10:30"; Reason := VStr "Regular checkup" |}.

Definition unknown_patient : request_body :=
  {| PatientId := VInt 999999; AppointmentDate := VStr "2024-12-25";
     AppointmentTime := VStr "10:30"; Reason := VStr "Regular checkup" |}.

Definition nothing_supplied : request_body :=
  {| PatientId := VUndefined; AppointmentDate := VUndefined;
     AppointmentTime := VUndefined; Reason := VUndefined |}.

Definition sample_rows : list Patient.t :=
  [ {| Patient.id := 1; Patient.name := "John Doe";
       Patient.email := Some "john@example.com"; Patient.phone := Some "555-0101" |};
    {| Patient.id := 2; Patient.name := "Jane Smith";
       Patient.email := Some "jane@example.com"; Patient.phone := Some "555-0102" |};
    {| Patient.id := 3; Patient.name := "Bob Johnson";
       Patient.email := Some "bob@example.com"; Patient.phone := Some "555-0103" |} ].

Definition booking (i : Z) (date time : string) : Appointment.t :=
  {| Appointment.id := i; Appointment.patient_id := SInt 1;
     Appointment.appointment_date := SText date; Appointment.appointment_time := SText time;
     Appointment.reason := SText "Regular checkup"; Appointment.status := Some "scheduled" |}.

(** The store right after start-up on a fresh file. *)
Definition fresh_store : database :=
  {| patients := Some sample_rows; appointments := Some [];
     seq_patients := 3; seq_appointments := 0 |}.

(** ... after [checkup] was created. *)
Definition booked_store : database :=
  {| patients := Some sample_rows;
     appointments := Some [booking 1 "2024-12-25" "10:30"];
     seq_patients := 3; seq_appointments := 1 |}.

(** ... and after [early_checkup] was created as well. *)
Definition two_bookings_store : database :=
  {| patients := Some sample_rows;
     appointments := Some [booking 1 "2024-12-25" "10:30"; booking 2 "2024-12-25" "9:30"];
     seq_patients := 3; seq_appointments := 2 |}.

(** A store with two bookings on one day, both times written [HH:MM]. *)
Definition padded_bookings_store : database :=
  {| patients := Some sample_rows;
     appointments := Some [booking 1 "2024-12-25" "10:30"; booking 2 "2024-12-25" "09:30"];
     seq_patients := 3; seq_appointments := 2 |}.

Definition serving (s : database) : world := {| db := s; log := [] |}.

(** The three storage calls of a create request that gets as far as the
    insert, and the 201 answer it is given. *)
Definition create_calls (b : request_body) : list db_call :=
  [SelectPatientById (bind_param (PatientId b));
   SelectAppointmentConflict (bind_param (PatientId b)) (bind_param (AppointmentDate b))
                             (bind_param (AppointmentTime b));
   InsertAppointment (bind_param (PatientId b)) (bind_param (AppointmentDate b))
                     (bind_param (AppointmentTime b)) (bind_param (Reason b))].

Definition created (i : Z) (b : request_body) : response :=
  {| status := 201;
     body := AppointmentCreated i (PatientId b) (AppointmentDate b) (AppointmentTime b)
               (Reason b) "Appointment created successfully" |}.

(** *** Start-up ([server.js], [scripts/init-database.js]) *)

(** How a Node process ends up: it has exited with a code, or it is
    listening for requests. *)
Inductive process : Type :=
| Exited (code : Z)
| Listening.


(** The last statement of [server.js]: listen once the promise resolves,
    exit with code 1 when it is rejected.  As above the store is the one
    after the queued seeding has run: statements of later requests go
    through the same serialized connection and so run after it. *)
Definition start_server (s : database) : process * database :=
  match initializeDatabase s with
  | (Ok _, s') => (Listening, s')
  | (Err _, s') => (Exited 1, s')
  end.

(** The store after the create requests [reqs], each run to completion
    before the next. *)
Definition after_requests (s : database) (reqs : list request_body) : database :=
  fold_left (fun s' b => db (snd (post_appointment b (serving s')))) reqs s.

(** *** The application of [server.js]

    A request as the middleware chain sees it: its method, the decoded,
    non-empty segments of its path, the two query parameters the list route
    reads, and the outcome of the JSON body parser ([Err] with the parser's
    message when it failed; a request without a body parses to an object
    without fields).  [HEAD] requests are not represented. *)

Inductive http_method : Type := GET | POST | PUT | PATCH | DELETE | OPTIONS.

Record http_request : Type := {
  rq_method : http_method;
  rq_path : list string;
  rq_patientId : option string;
  rq_date : option string;
  rq_json : result request_body
}.

(** Bodies written by [server.js] itself, next to those of the routes. *)
Inductive server_json : Type :=
| FromRoute (j : json)
| Health (status message : string)
| RouteNotFound (error : string).

Inductive reply : Type :=
| Json (code : Z) (payload : server_json)
| Preflight
| ApiDocs.

(** Route paths are matched without regard to letter case. *)
Definition lower_ascii (c : ascii) : ascii :=
  let n := N_of_ascii c in
  if ((65 <=? n) && (n <=? 90))%N then ascii_of_N (n + 32) else c.

Fixpoint lower (s : string) : string :=
  match s with
  | EmptyString => EmptyString
  | String c s' => String (lower_ascii c) (lower s')
  end.

Definition segment_is (literal segment : string) : bool := String.eqb (lower segment) literal.

(** The router mounted at [/api/appointments], given the rest of the path:
    [post("/")], [get("/")], [get("/:id")].  [None]: no route matches. *)
Definition appointmentRoutes (rq : http_request) (b : request_body) (rest : list string)
  : option (M response) :=
  match rest, rq_method rq with
  | [], POST => Some (post_appointment b)
  | [], GET => Some (get_appointments (rq_patientId rq) (rq_date rq))
  | [String c s], GET => Some (get_appointment (String c s))
  | _, _ => None
  end.

Definition mounted (path : list string) : option (list string) :=
  match path with
  | a :: b :: rest =>
      if segment_is "api" a && segment_is "appointments" b then Some rest else None
  | _ => None
  end.

Definition not_found : reply := Json 404 (RouteNotFound "Route not found").

(** The middleware chain in the order [server.js] installs it: CORS (which
    answers every [OPTIONS] request itself), the JSON body parser (whose
    failure goes to the error-handling middleware), the documentation UI,
    the appointment router, the health check, the catch-all 404. *)
Definition server (rq : http_request) : M reply :=
  match rq_method rq with
  | OPTIONS => ret Preflight
  | _ =>
      match rq_json rq with
      | Err message =>
          ret (Json 500 (FromRoute (ErrorMessage "Something went wrong!" message)))
      | Ok b =>
          match rq_path rq with
          | first :: _ =>
              if segment_is "api-docs" first then ret ApiDocs
              else
                match
                  match mounted (rq_path rq) with
                  | Some rest => appointmentRoutes rq b rest
                  | None => None
                  end
                with
                | Some handler =>
                    r <- handler ;; ret (Json (status r) (FromRoute (body r)))
                | None =>
                    match rq_path rq, rq_method rq with
                    | [segment], GET =>
                        if segment_is "health" segment
                        then ret (Json 200 (Health "OK" "Appointment Management API is running"))
                        else ret not_found
                    | _, _ => ret not_found
                    end
                end
          | [] => ret not_found
          end
      end
  end.

(** *** Texts *)

Fixpoint all_space (s : string) : bool :=
  match s with
  | EmptyString => true
  | String c s' => is_space c && all_space s'
  end.


(** The condition a date filter puts on a listed row. *)
Definition date_matches (date : option string) (r : list_row) : bool :=
  if truthy date
  then sql_eq (lr_AppointmentDate r) (apply_affinity (SText (query_text date)))
  else true.

(** The condition a patient filter puts on a listed row. *)
Definition patient_matches (patientId : option string) (r : list_row) : bool :=
  if truthy patientId
  then sql_eq (lr_PatientId r) (apply_affinity (SText (query_text patientId)))
  else true.

(** The ids 1, 2, ..., n. *)
Definition first_ids (n : nat) : list Z := map Z.of_nat (seq 1 n).

(** The list row of a sample booking. *)
Definition listed_booking (i : Z) (date time : string) : list_row :=
  {| lr_AppointmentId := i; lr_PatientId := SInt 1;
     lr_AppointmentDate := SText date; lr_AppointmentTime := SText time;
     lr_Reason := SText "Regular checkup"; lr_status := Some "scheduled";
     lr_PatientName := "John Doe" |}.

(** Sample HTTP requests. *)
Definition get_health : http_request :=
  {| rq_method := GET; rq_path := ["Health"]; rq_patientId := None; rq_date := None;
     rq_json := Ok nothing_supplied |}.

Definition post_checkup : http_request :=
  {| rq_method := POST; rq_path := ["api"; "appointments"]; rq_patientId := None;
     rq_date := None; rq_json := Ok checkup |}.

(** * Properties *)

(** ** Regular expression matching *)

Lemma append_empty_inv (s1 s2 : string) : s1 ++ s2 = "" -> s1 = "" /\ s2 = "".
Proof.
  destruct s1; simpl; intros H; [auto | discriminate].
Qed.

Lemma nullable_Matches (r : regex) : nullable r = true <-> Matches r "".
Proof.
  induction r; simpl; split; intros H.
  - discriminate.
  - inversion H.
  - constructor.
  - reflexivity.
  - discriminate.
  - inversion H.
  - apply andb_true_iff in H as [H1 H2].
    change "" with ("" ++ ""). constructor; [apply IHr1 | apply IHr2]; assumption.
  - inversion H; subst.
    match goal with E : _ ++ _ = "" |- _ => apply append_empty_inv in E as [-> ->] end.
    apply andb_true_iff; split; [apply IHr1 | apply IHr2]; assumption.
  - apply orb_true_iff in H as [H | H];
      [apply MAltL, IHr1 | apply MAltR, IHr2]; assumption.
  - apply orb_true_iff. inversion H; subst; [left; apply IHr1 | right; apply IHr2]; assumption.
  - constructor.
  - reflexivity.
Qed.

Lemma deriv_sound (c : ascii) (r : regex) :
  forall s, Matches (deriv c r) s -> Matches r (String c s).
Proof.
  induction r; simpl; intros s H.
  - inversion H.
  - inversion H.
  - destruct (in_class c ranges) eqn:E; inversion H; subst.
    constructor; assumption.
  - destruct (nullable r1) eqn:N.
    + inversion H; subst.
      * match goal with M : Matches (Seq _ _) _ |- _ => inversion M; subst end.
        change (String c (s1 ++ s2)) with (String c s1 ++ s2).
        constructor; [apply IHr1 |]; assumption.
      * change (String c s) with ("" ++ String c s).
        constructor; [apply nullable_Matches | apply IHr2]; assumption.
    + inversion H; subst.
      change (String c (s1 ++ s2)) with (String c s1 ++ s2).
      constructor; [apply IHr1 |]; assumption.
  - inversion H; subst; [apply MAltL, IHr1 | apply MAltR, IHr2]; assumption.
  - inversion H; subst.
    change (String c (s1 ++ s2)) with (String c s1 ++ s2).
    constructor; [apply IHr |]; assumption.
Qed.

Lemma deriv_complete (r : regex) (t : string) :
  Matches r t -> forall c s, t = String c s -> Matches (deriv c r) s.
Proof.
  induction 1; intros c0 s0 E; simpl.
  - discriminate.
  - injection E as -> <-. rewrite H. constructor.
  - destruct s1 as [| a s1']; simpl in E.
    + subst s2.
      assert (N : nullable r1 = true) by (apply nullable_Matches; assumption).
      rewrite N. apply MAltR. apply IHMatches2. reflexivity.
    + injection E as -> <-.
      assert (M : Matches (Seq (deriv c0 r1) r2) (s1' ++ s2))
        by (constructor; [apply IHMatches1; reflexivity | assumption]).
      destruct (nullable r1); [apply MAltL |]; exact M.
  - apply MAltL. apply IHMatches. assumption.
  - apply MAltR. apply IHMatches. assumption.
  - discriminate.
  - destruct s1 as [| a s1']; simpl in E.
    + subst s2. simpl in IHMatches2. apply IHMatches2. reflexivity.
    + injection E as -> <-.
      constructor; [apply IHMatches1; reflexivity | assumption].
Qed.

Lemma test_Matches (s : string) : forall r, Regex.test r s = true <-> Matches r s.
Proof.
  induction s as [| c s IH]; intros r; simpl.
  - apply nullable_Matches.
  - rewrite IH. split; [apply deriv_sound |].
    intros H. eapply deriv_complete; [exact H | reflexivity].
Qed.

(** ** The time pattern *)

Lemma in_class_single (c lo hi : ascii) :
  in_class c [(lo, hi)] = true <->
  (N_of_ascii lo <= N_of_ascii c /\ N_of_ascii c <= N_of_ascii hi)%N.
Proof.
  unfold in_class, in_range; simpl. rewrite orb_false_r, andb_true_iff.
  rewrite !N.leb_le. tauto.
Qed.

Lemma in_class_Chr (c x : ascii) : in_class c [(x, x)] = true <-> c = x.
Proof.
  rewrite in_class_single. split.
  - intros [H1 H2]. assert (E : N_of_ascii c = N_of_ascii x) by lia.
    rewrite <- (ascii_N_embedding c), <- (ascii_N_embedding x), E. reflexivity.
  - intros ->. lia.
Qed.

Lemma digit_val_spec (c : ascii) (a : Z) :
  digit_val c = Some a <-> Z.of_N (N_of_ascii c) = a + 48 /\ 0 <= a <= 9.
Proof.
  unfold digit_val.
  destruct (Z.leb_spec 48 (Z.of_N (N_of_ascii c)));
    destruct (Z.leb_spec (Z.of_N (N_of_ascii c)) 57); simpl;
    (split; [intros E; try discriminate; inv E; lia | intros [E B]; try lia]).
  f_equal. lia.
Qed.

Lemma in_class_digits (c lo hi : ascii) (a b : Z) :
  digit_val lo = Some a -> digit_val hi = Some b ->
  (in_class c [(lo, hi)] = true <-> exists n, digit_val c = Some n /\ a <= n <= b).
Proof.
  intros Ha Hb. apply digit_val_spec in Ha as [Ea Ba], Hb as [Eb Bb].
  rewrite in_class_single. split.
  - intros [H1 H2]. exists (Z.of_N (N_of_ascii c) - 48). split; [| lia].
    apply digit_val_spec. lia.
  - intros (n & Hn & Bn). apply digit_val_spec in Hn as [En _]. lia.
Qed.

Lemma Matches_Class (rs : list (ascii * ascii)) (s : string) :
  Matches (Class rs) s <-> exists c, s = String c "" /\ in_class c rs = true.
Proof.
  split.
  - intros H. inv H. eauto.
  - intros (c & -> & H). constructor. assumption.
Qed.

Lemma Matches_Seq (r1 r2 : regex) (s : string) :
  Matches (Seq r1 r2) s <-> exists s1 s2, s = s1 ++ s2 /\ Matches r1 s1 /\ Matches r2 s2.
Proof.
  split.
  - intros H. inv H. eauto.
  - intros (s1 & s2 & -> & H1 & H2). constructor; assumption.
Qed.

Lemma Matches_Alt (r1 r2 : regex) (s : string) :
  Matches (Alt r1 r2) s <-> Matches r1 s \/ Matches r2 s.
Proof.
  split.
  - intros H. inv H; auto.
  - intros [H | H]; [apply MAltL | apply MAltR]; assumption.
Qed.

Lemma Matches_Eps (s : string) : Matches Eps s <-> s = "".
Proof.
  split; [intros H; inv H; reflexivity | intros ->; constructor].
Qed.

(** The minutes part [[0-5][0-9]]. *)
Lemma Matches_minutes (s : string) :
  Matches (Seq (Range "0" "5") (Range "0" "9")) s <->
  exists m1 m2 mm, s = String m1 (String m2 "") /\ two_digits m1 m2 mm /\ mm <= 59.
Proof.
  unfold Range. rewrite Matches_Seq. split.
  - intros (s1 & s2 & -> & H1 & H2).
    apply Matches_Class in H1 as (c1 & -> & H1), H2 as (c2 & -> & H2).
    apply (in_class_digits c1 "0" "5" (a := 0) (b := 5)) in H1 as (a & Ha & Ba); [| reflexivity ..].
    apply (in_class_digits c2 "0" "9" (a := 0) (b := 9)) in H2 as (b & Hb & Bb); [| reflexivity ..].
    exists c1, c2, (10 * a + b). repeat split; [| lia].
    exists a, b. auto.
  - intros (m1 & m2 & mm & -> & (a & b & Ha & Hb & ->) & B).
    pose proof (proj1 (digit_val_spec _ _) Ha) as [_ Ba].
    pose proof (proj1 (digit_val_spec _ _) Hb) as [_ Bb].
    exists (String m1 ""), (String m2 ""). repeat split.
    + apply Matches_Class. eexists; split; [reflexivity |].
      apply (in_class_digits m1 "0" "5" (a := 0) (b := 5)); [reflexivity .. |].
      exists a. split; [assumption | lia].
    + apply Matches_Class. eexists; split; [reflexivity |].
      apply (in_class_digits m2 "0" "9" (a := 0) (b := 9)); [reflexivity .. |].
      exists b. split; [assumption | lia].
Qed.

(** The hour part [([0-1]?[0-9]|2[0-3])]. *)
Lemma Matches_hour (s : string) :
  Matches (Alt (Seq (Opt (Range "0" "1")) (Range "0" "9")) (Seq (Chr "2") (Range "0" "3"))) s <->
  (exists h hh, s = String h "" /\ digit_val h = Some hh)
  \/ (exists h1 h2 hh, s = String h1 (String h2 "") /\ two_digits h1 h2 hh /\ hh <= 23).
Proof.
  unfold Opt, Range, Chr. rewrite Matches_Alt, !Matches_Seq. split.
  - intros [(s1 & s2 & -> & H1 & H2) | (s1 & s2 & -> & H1 & H2)].
    + apply Matches_Class in H2 as (c2 & -> & H2).
      apply (in_class_digits c2 "0" "9" (a := 0) (b := 9)) in H2 as (b & Hb & Bb); [| reflexivity ..].
      apply Matches_Alt in H1 as [H1 | H1].
      * apply Matches_Class in H1 as (c1 & -> & H1).
        apply (in_class_digits c1 "0" "1" (a := 0) (b := 1)) in H1 as (a & Ha & Ba);
          [| reflexivity ..].
        right. exists c1, c2, (10 * a + b). repeat split; [| lia].
        exists a, b. auto.
      * apply Matches_Eps in H1 as ->. left. exists c2, b. auto.
    + apply Matches_Class in H1 as (c1 & -> & H1), H2 as (c2 & -> & H2).
      apply in_class_Chr in H1 as ->.
      apply (in_class_digits c2 "0" "3" (a := 0) (b := 3)) in H2 as (b & Hb & Bb); [| reflexivity ..].
      right. exists "2"%char, c2, (10 * 2 + b). repeat split; [| lia].
      exists 2, b. auto.
  - intros [(h & hh & -> & Hh) | (h1 & h2 & hh & -> & (a & b & Ha & Hb & ->) & B)].
    + left. exists "", (String h ""). repeat split.
      * apply MAltR. constructor.
      * apply Matches_Class. eexists; split; [reflexivity |].
        apply (in_class_digits h "0" "9" (a := 0) (b := 9)); [reflexivity .. |].
        exists hh. split; [assumption |]. apply digit_val_spec in Hh. lia.
    + pose proof (proj1 (digit_val_spec _ _) Ha) as [Ea Ba].
      pose proof (proj1 (digit_val_spec _ _) Hb) as [_ Bb].
      destruct (Z.eq_dec a 2) as [-> | Na].
      * right. exists (String h1 ""), (String h2 ""). repeat split.
        -- apply Matches_Class. eexists; split; [reflexivity |].
           apply in_class_single. change (N_of_ascii "2") with 50%N. lia.
        -- apply Matches_Class. eexists; split; [reflexivity |].
           apply (in_class_digits h2 "0" "3" (a := 0) (b := 3)); [reflexivity .. |].
           exists b. split; [assumption | lia].
      * left. exists (String h1 ""), (String h2 ""). repeat split.
        -- apply MAltL. apply Matches_Class. eexists; split; [reflexivity |].
           apply (in_class_digits h1 "0" "1" (a := 0) (b := 1)); [reflexivity .. |].
           exists a. split; [assumption | lia].
        -- apply Matches_Class. eexists; split; [reflexivity |].
           apply (in_class_digits h2 "0" "9" (a := 0) (b := 9)); [reflexivity .. |].
           exists b. split; [assumption | lia].
Qed.

Lemma matches_time_shape (s : string) :
  matches_time s = true <-> spec_HH_MM s \/ shape_H_MM s.
Proof.
  unfold matches_time, time_pattern. rewrite test_Matches, Matches_Seq.
  split.
  - intros (s1 & s2 & -> & H1 & H2).
    apply Matches_Seq in H2 as (s3 & s4 & -> & H3 & H4).
    apply Matches_Class in H3 as (c & -> & H3). apply in_class_Chr in H3 as ->.
    apply Matches_minutes in H4 as (m1 & m2 & mm & -> & Hm & Bm).
    apply Matches_hour in H1 as [(h & hh & -> & Hh) | (h1 & h2 & hh & -> & Hh & Bh)].
    + right. exists h, m1, m2, hh, mm. auto.
    + left. exists h1, h2, m1, m2, hh, mm. auto.
  - intros [(h1 & h2 & m1 & m2 & hh & mm & -> & Hh & Bh & Hm & Bm)
           | (h & m1 & m2 & hh & mm & -> & Hh & Hm & Bm)].
    + exists (String h1 (String h2 "")), (String ":" (String m1 (String m2 ""))).
      repeat split.
      * apply Matches_hour. right. eauto 6.
      * apply (MSeq (r1 := Chr ":") (s1 := String ":" "")).
        -- apply Matches_Class. eexists; split; [reflexivity | apply in_class_Chr; reflexivity].
        -- apply Matches_minutes. eauto 6.
    + exists (String h ""), (String ":" (String m1 (String m2 ""))).
      repeat split.
      * apply Matches_hour. left. eauto.
      * apply (MSeq (r1 := Chr ":") (s1 := String ":" "")).
        -- apply Matches_Class. eexists; split; [reflexivity | apply in_class_Chr; reflexivity].
        -- apply Matches_minutes. eauto 6.
Qed.

(** ** The create route, path by path *)

Lemma post_appointment_run (req_body : request_body) (w : world) :
  let b := sanitize req_body in
  let p := bind_param (PatientId b) in
  let d := bind_param (AppointmentDate b) in
  let t := bind_param (AppointmentTime b) in
  let r := bind_param (Reason b) in
  let failed := {| status := 500;
                   body := ErrorMessage "Internal server error" "Failed to create appointment" |} in
  post_appointment req_body w =
  match validationResult req_body with
  | _ :: _ =>
      (Ok {| status := 400;
             body := ValidationFailed "Validation failed" (validationResult req_body) |}, w)
  | [] =>
      match patients (db w) with
      | None => (Ok failed, logged w [SelectPatientById p])
      | Some ps =>
          match find (fun x => sql_eq (SInt (Patient.id x)) (apply_affinity p)) ps with
          | None =>
              (Ok {| status := 404;
                     body := ErrorMessage "Patient not found"
                               ("Patient with ID " ++ js_String (PatientId b)
                                ++ " does not exist") |},
               logged w [SelectPatientById p])
          | Some _ =>
              match appointments (db w) with
              | None =>
                  (Ok failed, logged w [SelectPatientById p; SelectAppointmentConflict p d t])
              | Some apps =>
                  match find (same_slot (apply_affinity p) (apply_affinity d)
                                        (apply_affinity t)) apps with
                  | Some _ =>
                      (Ok {| status := 409;
                             body := ErrorMessage "Appointment conflict"
                                       "Patient already has an appointment at this date and time" |},
                       logged w [SelectPatientById p; SelectAppointmentConflict p d t])
                  | None =>
                      let calls := [SelectPatientById p; SelectAppointmentConflict p d t;
                                    InsertAppointment p d t r] in
                      if is_null p || is_null d || is_null t || is_null r
                      then (Ok failed, logged w calls)
                      else
                        let lastID := next_id (seq_appointments (db w))
                                              (map Appointment.id apps) in
                        (Ok {| status := 201;
                               body := AppointmentCreated lastID (PatientId b)
                                         (AppointmentDate b) (AppointmentTime b) (Reason b)
                                         "Appointment created successfully" |},
                         {| db := {| patients := Some ps;
                                     appointments :=
                                       Some (apps ++
                                             [{| Appointment.id := lastID;
                                                 Appointment.patient_id := apply_affinity p;
                                                 Appointment.appointment_date := apply_affinity d;
                                                 Appointment.appointment_time := apply_affinity t;
                                                 Appointment.reason := text_affinity r;
                                                 Appointment.status := Some "scheduled" |}])%list;
                                     seq_patients := seq_patients (db w);
                                     seq_appointments := lastID |};
                            log := (log w ++ calls)%list |})
                  end
              end
          end
      end
  end.
Proof.
  intros b p d t r failed.
  unfold post_appointment, catch, logged.
  destruct (validationResult req_body) as [| e es] eqn:V; simpl; [| reflexivity].
  fold b p d t r.
  unfold bind at 1, select_patient, bind at 1, record_call, bind, read_db, fail, ret; simpl.
  destruct (patients (db w)) as [ps |] eqn:P; [| reflexivity].
  destruct (find _ ps) as [x |]; simpl; [| reflexivity].
  unfold select_conflict, bind, record_call, read_db, fail, ret; simpl.
  destruct (appointments (db w)) as [apps |] eqn:A; simpl;
    [| rewrite <- app_assoc; reflexivity].
  destruct (find _ apps) as [a |]; simpl; [rewrite <- app_assoc; reflexivity |].
  unfold insert_appointment, bind, record_call, read_db, write_db, fail, ret; simpl.
  rewrite A, P. subst p d t r b failed. simpl.
  match goal with |- context [if ?c then _ else _] => destruct c end; simpl;
    rewrite <- !app_assoc; reflexivity.
Qed.

Lemma find_none_existsb (A : Type) (f : A -> bool) (l : list A) :
  find f l = None <-> existsb f l = false.
Proof.
  induction l as [| x l IH]; simpl; [tauto |].
  destruct (f x); simpl; [split; discriminate | exact IH].
Qed.



(** ** The validation gate *)

(** C2: when at least one of the four rules is violated, the answer is the
    single 400 "Validation failed" body whose details hold one entry, with
    its message and field, for every violated rule and for no other, and the
    world (database and storage calls) is exactly as before. *)
Theorem validation_reports_every_violation (req_body : request_body) (w : world) :
  PatientId_ok req_body && AppointmentDate_ok req_body
    && AppointmentTime_ok req_body && Reason_ok req_body = false ->
  exists details,
    post_appointment req_body w =
      (Ok {| status := 400; body := ValidationFailed "Validation failed" details |}, w)
    /\ (PatientId_ok req_body = false <->
        reported details "PatientId" "PatientId must be a positive integer")
    /\ (AppointmentDate_ok req_body = false <->
        reported details "AppointmentDate" "AppointmentDate must be a valid date (YYYY-MM-DD)")
    /\ (AppointmentTime_ok req_body = false <->
        reported details "AppointmentTime" "AppointmentTime must be in HH:MM format")
    /\ (Reason_ok req_body = false <->
        reported details "Reason" "Reason must be between 1 and 500 characters")
    /\ NoDup (map err_path details)
    /\ Forall (fun e => In (err_path e) ["PatientId"; "AppointmentDate"; "AppointmentTime"; "Reason"])
              details.
Proof.
  intros H. exists (validationResult req_body).
  rewrite post_appointment_run.
  unfold validationResult, check in *.
  destruct (PatientId_ok req_body), (AppointmentDate_ok req_body),
    (AppointmentTime_ok req_body), (Reason_ok req_body);
    try discriminate H; simpl; clear H;
    (split; [reflexivity |]);
    (split; [report_cases |]); (split; [report_cases |]);
    (split; [report_cases |]); (split; [report_cases |]);
    (split;
     [ repeat (constructor; [simpl; intuition discriminate |]); constructor
     | repeat (constructor; [simpl; tauto |]); constructor ]).
Qed.

(** C3: a create request answered 404 or 409 leaves the database as it was;
    and a request that passes the gate and names a patient id that no
    patient row has is answered 404 "Patient not found" with that id in the
    message, the appointments table being untouched. *)
Theorem failed_check_creates_nothing (req_body : request_body) (w : world) :
  (forall resp w',
      post_appointment req_body w = (Ok resp, w') ->
      status resp = 404 \/ status resp = 409 ->
      db w' = db w)
  /\ (forall ps,
         validationResult req_body = [] ->
         patients (db w) = Some ps ->
         (forall x, In x ps ->
                    sql_eq (SInt (Patient.id x))
                           (apply_affinity (bind_param (PatientId req_body))) = false) ->
         exists w',
           post_appointment req_body w =
             (Ok {| status := 404;
                    body := ErrorMessage "Patient not found"
                              ("Patient with ID " ++ js_String (PatientId req_body)
                               ++ " does not exist") |}, w')
           /\ db w' = db w
           /\ List.length (table (appointments (db w'))) =
              List.length (table (appointments (db w)))).
Proof.
  split.
  - intros resp w' E S.
    rewrite post_appointment_run in E.
    repeat match type of E with
           | context [match ?x with _ => _ end] => destruct x
           end;
      inv E; simpl in S; try (destruct S; discriminate); reflexivity.
  - intros ps V P N.
    rewrite post_appointment_run, V, P. simpl.
    destruct (find _ ps) as [x |] eqn:F.
    + apply find_some in F as [I F]. specialize (N x I). simpl in N, F.
      rewrite N in F. discriminate.
    + eexists. split; [reflexivity |]. split; reflexivity.
Qed.

(** ** The conflict invariant *)

Lemma sql_eq_sym (a b : sqlval) : sql_eq a b = sql_eq b a.
Proof.
  destruct a, b; simpl; try reflexivity.
  - apply eq_true_iff_eq. rewrite !Qeq_bool_iff. split; intros H; symmetry; exact H.
  - apply String.eqb_sym.
Qed.



Lemma find_app_none (A : Type) (f : A -> bool) (l l' : list A) :
  find f l = None -> find f (l ++ l') = find f l'.
Proof.
  induction l as [| x l IH]; simpl; [reflexivity |].
  destruct (f x); [discriminate | exact IH].
Qed.



Lemma post_appointment_patients (req_body : request_body) (w : world) :
  patients (db (snd (post_appointment req_body w))) = patients (db w).
Proof.
  rewrite post_appointment_run.
  repeat match goal with
         | |- context [match ?x with _ => _ end] => destruct x eqn:?
         end; simpl; congruence.
Qed.

Lemma initializeDatabase_fresh :
  snd (initializeDatabase empty_database) =
  {| patients :=
       Some [ {| Patient.id := 1; Patient.name := "John Doe";
                 Patient.email := Some "john@example.com"; Patient.phone := Some "555-0101" |};
              {| Patient.id := 2; Patient.name := "Jane Smith";
                 Patient.email := Some "jane@example.com"; Patient.phone := Some "555-0102" |};
              {| Patient.id := 3; Patient.name := "Bob Johnson";
                 Patient.email := Some "bob@example.com"; Patient.phone := Some "555-0103" |} ];
     appointments := Some [];
     seq_patients := 3;
     seq_appointments := 0 |}.
Proof. reflexivity. Qed.



(** ** The list route *)

Lemma sql_compare_antisym (a b : sqlval) : sql_compare b a = CompOpp (sql_compare a b).
Proof.
  destruct a, b; simpl; try reflexivity.
  - symmetry. apply Qcompare_antisym.
  - apply String.compare_antisym.
Qed.

Lemma order_compare_antisym (r1 r2 : list_row) :
  order_compare r2 r1 = CompOpp (order_compare r1 r2).
Proof.
  unfold order_compare.
  rewrite (sql_compare_antisym (lr_AppointmentDate r1) (lr_AppointmentDate r2)).
  rewrite (sql_compare_antisym (lr_AppointmentTime r1) (lr_AppointmentTime r2)).
  destruct (sql_compare (lr_AppointmentDate r1) (lr_AppointmentDate r2)); reflexivity.
Qed.

Lemma order_leb_total (r1 r2 : list_row) : order_leb r1 r2 = false -> order_leb r2 r1 = true.
Proof.
  unfold order_leb. rewrite (order_compare_antisym r1 r2).
  destruct (order_compare r1 r2); simpl; auto.
Qed.

Lemma order_leb_date_then_time (r1 r2 : list_row) :
  order_leb r1 r2 = true <-> date_then_time r1 r2.
Proof.
  unfold order_leb, order_compare, date_then_time.
  destruct (sql_compare (lr_AppointmentDate r1) (lr_AppointmentDate r2)) eqn:D.
  - destruct (sql_compare (lr_AppointmentTime r1) (lr_AppointmentTime r2)) eqn:T;
      split; intros H; try discriminate; auto.
    + right. split; [reflexivity | discriminate].
    + right. split; [reflexivity | discriminate].
    + destruct H as [H | [_ H]]; [discriminate | contradiction].
  - split; auto.
  - split; [discriminate |]. intros [H | [H _]]; discriminate.
Qed.

Lemma insert_row_perm (r : list_row) (l : list list_row) : Permutation (insert_row r l) (r :: l).
Proof.
  induction l as [| x l IH]; simpl; [reflexivity |].
  destruct (order_leb r x); [reflexivity |].
  rewrite IH. apply perm_swap.
Qed.

Lemma order_by_perm (l : list list_row) : Permutation (order_by l) l.
Proof.
  induction l as [| x l IH]; simpl; [constructor |].
  rewrite insert_row_perm. constructor. exact IH.
Qed.

Lemma insert_row_sorted (r : list_row) (l : list list_row) :
  Sorted date_then_time l -> Sorted date_then_time (insert_row r l).
Proof.
  induction 1 as [| x l S IH H]; simpl.
  - repeat constructor.
  - destruct (order_leb r x) eqn:E.
    + constructor; [constructor; assumption |].
      constructor. apply order_leb_date_then_time. exact E.
    + constructor; [exact IH |].
      apply order_leb_total, order_leb_date_then_time in E.
      destruct H as [| y l' Hxy]; simpl.
      * constructor. exact E.
      * destruct (order_leb r y); constructor; assumption.
Qed.

Lemma order_by_sorted (l : list list_row) : Sorted date_then_time (order_by l).
Proof.
  induction l as [| x l IH]; simpl; [constructor | apply insert_row_sorted, IH].
Qed.

Lemma build_conditions_wanted (patientId date : option string) (a : Appointment.t) :
  forallb (fun c => holds c a) (build_conditions patientId date) = wanted patientId date a.
Proof.
  unfold build_conditions, wanted.
  destruct (truthy patientId), (truthy date); simpl;
    rewrite ?andb_true_r; reflexivity.
Qed.

Lemma inject_Z_eq (i j : Z) (q : Q) :
  Qeq_bool q (inject_Z i) = true -> Qeq_bool q (inject_Z j) = true -> i = j.
Proof.
  rewrite !Qeq_bool_iff. intros Hi Hj. rewrite Hi in Hj.
  unfold Qeq in Hj. simpl in Hj. lia.
Qed.

Lemma referenced_patient_unique (v : sqlval) (p q : Patient.t) :
  sql_eq v (SInt (Patient.id p)) = true -> sql_eq v (SInt (Patient.id q)) = true ->
  Patient.id p = Patient.id q.
Proof.
  destruct v; simpl; try discriminate. apply inject_Z_eq.
Qed.

(** With unique patient ids, the join pairs an appointment with at most one
    patient row. *)
Lemma referenced_patients (v : sqlval) (ps : list Patient.t) :
  NoDup (map Patient.id ps) ->
  forall p, In p ps -> sql_eq v (SInt (Patient.id p)) = true ->
  filter (fun x => sql_eq v (SInt (Patient.id x))) ps = [p].
Proof.
  induction ps as [| x ps IH]; simpl; intros N p I E; [contradiction |].
  inv N. destruct I as [-> | I].
  - rewrite E. f_equal.
    destruct (filter (fun x => sql_eq v (SInt (Patient.id x))) ps) as [| y l] eqn:F;
      [reflexivity |].
    assert (Hy : In y (filter (fun x => sql_eq v (SInt (Patient.id x))) ps))
      by (rewrite F; left; reflexivity).
    apply filter_In in Hy as [Hy Ey].
    exfalso. match goal with H : ~ In _ _ |- _ => apply H end.
    rewrite (referenced_patient_unique v p y E Ey). apply in_map. exact Hy.
  - destruct (sql_eq v (SInt (Patient.id x))) eqn:Ex.
    + exfalso. match goal with H : ~ In _ _ |- _ => apply H end.
      rewrite (referenced_patient_unique v x p Ex E). apply in_map. exact I.
    + apply IH; assumption.
Qed.



(** Every store the service reaches has both tables, unique patient ids and
    only appointments that refer to a patient. *)
Lemma reachable_well_formed (s : database) :
  reachable s ->
  exists ps apps,
    patients s = Some ps /\ appointments s = Some apps
    /\ NoDup (map Patient.id ps) /\ references_resolve ps apps.
Proof.
  induction 1 as [| s req_body R (ps & apps & P & A & N & F)].
  - rewrite initializeDatabase_fresh. do 2 eexists. repeat split.
    + simpl. repeat constructor; simpl; intuition discriminate.
    + constructor.
  - rewrite post_appointment_run. simpl. rewrite P, A.
    repeat match goal with
           | |- context [match ?x with _ => _ end] => destruct x eqn:?
           end; simpl; rewrite ?P, ?A;
      try (exists ps, apps; repeat split; assumption).
    exists ps. eexists. repeat split; try assumption.
    apply Forall_app. split; [assumption |].
    constructor; [| constructor].
    match goal with
    | H : find _ ps = Some ?x |- _ => apply find_some in H as [I E]; exists x
    end.
    split; [assumption |]. simpl. rewrite sql_eq_sym. exact E.
Qed.

(** ** The lookup route *)

Lemma in_join_patients (ps : list Patient.t) (apps : list Appointment.t)
    (a : Appointment.t) (p : Patient.t) :
  In (a, p) (join_patients ps apps) <->
  In a apps /\ In p ps /\ sql_eq (Appointment.patient_id a) (SInt (Patient.id p)) = true.
Proof.
  unfold join_patients. rewrite in_flat_map. split.
  - intros (a' & Ia & H). apply in_map_iff in H as (p' & E & H). inv E.
    apply filter_In in H as [Ip E]. auto.
  - intros (Ia & Ip & E). exists a. split; [assumption |].
    apply in_map_iff. exists p. split; [reflexivity |].
    apply filter_In. auto.
Qed.

(** C8: the path segment is bound to the lookup as the text it is; when no
    stored appointment has that id the answer is 404 "Appointment not found"
    with the segment echoed in the message, whatever the text; when one has,
    the answer is 200 with that appointment and the name, email and phone of
    the patient it refers to. *)
Theorem get_appointment_by_text_id (appointmentId : string) (w : world)
    (ps : list Patient.t) (apps : list Appointment.t) :
  patients (db w) = Some ps ->
  appointments (db w) = Some apps ->
  references_resolve ps apps ->
  let has_id a := sql_eq (SInt (Appointment.id a)) (apply_affinity (SText appointmentId)) in
  exists resp,
    get_appointment appointmentId w =
      (Ok resp, logged w [SelectAppointmentById (SText appointmentId)])
    /\ ((forall a, In a apps -> has_id a = false) ->
        resp = {| status := 404;
                  body := ErrorMessage "Appointment not found"
                            ("Appointment with ID " ++ appointmentId ++ " does not exist") |})
    /\ ((exists a, In a apps /\ has_id a = true) ->
        exists a p,
          In a apps /\ has_id a = true /\ In p ps
          /\ sql_eq (Appointment.patient_id a) (SInt (Patient.id p)) = true
          /\ resp = {| status := 200;
                       body := AppointmentDetails
                                 {| dr_AppointmentId := Appointment.id a;
                                    dr_PatientId := Appointment.patient_id a;
                                    dr_AppointmentDate := Appointment.appointment_date a;
                                    dr_AppointmentTime := Appointment.appointment_time a;
                                    dr_Reason := Appointment.reason a;
                                    dr_status := Appointment.status a;
                                    dr_PatientName := Patient.name p;
                                    dr_PatientEmail := Patient.email p;
                                    dr_PatientPhone := Patient.phone p |} |}).
Proof.
  intros P A R has_id.
  unfold get_appointment, catch, select_appointment, bind, record_call, read_db, ret, logged.
  simpl. rewrite A, P.
  destruct (find _ (join_patients ps apps)) as [[a p] |] eqn:F; simpl.
  - apply find_some in F as [I E]. apply in_join_patients in I as (Ia & Ip & Ep).
    simpl in E. eexists. split; [reflexivity |]. split.
    + intros N. specialize (N a Ia). unfold has_id in N. simpl in N.
      rewrite N in E. discriminate.
    + intros _. exists a, p. auto.
  - eexists. split; [reflexivity |]. split; [reflexivity |].
    intros (a & Ia & E). exfalso.
    pose proof (proj1 (Forall_forall _ _) R a Ia) as (p & Ip & Ep).
    pose proof (find_none _ _ F (a, p) (proj2 (in_join_patients ps apps a p)
                                              (conj Ia (conj Ip Ep)))) as N.
    simpl in N. unfold has_id in E. simpl in E. rewrite E in N. discriminate.
Qed.

(** C10: a query parameter that is present but empty leaves the list request
    exactly what it is without that parameter. *)
Theorem empty_filter_is_no_filter (patientId date : option string) (w : world) :
  get_appointments (Some "") date w = get_appointments None date w
  /\ get_appointments patientId (Some "") w = get_appointments patientId None w.
Proof.
  unfold get_appointments, build_conditions. simpl.
  split; [| destruct (truthy patientId)]; reflexivity.
Qed.

(** ** Schema initialisation *)


(** ** What the time and date rules accept *)

(** C5 (as amended): a time text passes the gate exactly when it is a
    two-digit hour 00..23 or a one-digit hour 0..9, a colon, and minutes
    00..59. *)
Theorem time_rule_accepts (s : string) (p d r : value) :
  AppointmentTime_ok {| PatientId := p; AppointmentDate := d;
                        AppointmentTime := VStr s; Reason := r |} = true
  <-> spec_HH_MM s \/ shape_H_MM s.
Proof.
  unfold AppointmentTime_ok. simpl. apply matches_time_shape.
Qed.

(** ** Further facts about the routes *)

(** A field that is absent or [null] violates its rule. *)
Lemma missing_field_fails (b : request_body) :
  (PatientId b = VUndefined \/ PatientId b = VNull -> PatientId_ok b = false)
  /\ (AppointmentDate b = VUndefined \/ AppointmentDate b = VNull ->
      AppointmentDate_ok b = false)
  /\ (AppointmentTime b = VUndefined \/ AppointmentTime b = VNull ->
      AppointmentTime_ok b = false)
  /\ (Reason b = VUndefined \/ Reason b = VNull -> Reason_ok b = false).
Proof.
  unfold PatientId_ok, AppointmentDate_ok, AppointmentTime_ok, Reason_ok.
  repeat split; intros [E | E]; rewrite E; reflexivity.
Qed.

(** The read routes leave the database as it is. *)
Lemma get_appointments_readonly (patientId date : option string) (w : world) :
  db (snd (get_appointments patientId date w)) = db w.
Proof.
  unfold get_appointments, catch, select_appointments, bind, record_call, read_db, fail, ret.
  simpl. destruct (appointments (db w)), (patients (db w)); reflexivity.
Qed.

Lemma get_appointment_readonly (appointmentId : string) (w : world) :
  db (snd (get_appointment appointmentId w)) = db w.
Proof.
  unfold get_appointment, catch, select_appointment, bind, record_call, read_db, fail, ret.
  simpl. destruct (appointments (db w)), (patients (db w)); simpl;
    try reflexivity.
  destruct (find _ _); reflexivity.
Qed.

(** The id a create request returns was in use by no stored appointment. *)
Lemma max_id_bound (ids : list Z) (i : Z) : In i ids -> i <= max_id ids.
Proof.
  induction ids as [| x ids IH]; simpl; intros H; [contradiction |].
  destruct H as [-> | H]; [lia | specialize (IH H); lia].
Qed.


(** Times written [HH:MM] compare as texts the way they compare as times of
    day. *)
Lemma ascii_compare_digits (c1 c2 : ascii) (a b : Z) :
  digit_val c1 = Some a -> digit_val c2 = Some b -> Ascii.compare c1 c2 = Z.compare a b.
Proof.
  intros Ha Hb. apply digit_val_spec in Ha as [Ea _], Hb as [Eb _].
  unfold Ascii.compare. rewrite <- N2Z.inj_compare, Ea, Eb.
  rewrite (Z.add_comm a), (Z.add_comm b). apply Z.add_compare_mono_l.
Qed.

Lemma padded_times_compare_by_minutes (s t : string) (x y : Z) :
  spec_HH_MM s -> spec_HH_MM t ->
  minutes_of_day (SText s) = Some x -> minutes_of_day (SText t) = Some y ->
  (sql_compare (SText s) (SText t) <> Gt <-> x <= y).
Proof.
  intros (h1 & h2 & m1 & m2 & hh & mm & -> & (a1 & a2 & Ha1 & Ha2 & ->) & Bh
          & (a3 & a4 & Ha3 & Ha4 & ->) & Bm)
         (k1 & k2 & n1 & n2 & kk & nn & -> & (b1 & b2 & Hb1 & Hb2 & ->) & Bk
          & (b3 & b4 & Hb3 & Hb4 & ->) & Bn).
  cbn -[Z.mul Z.add Ascii.compare digit_val].
  rewrite Ha1, Ha2, Ha3, Ha4, Hb1, Hb2, Hb3, Hb4.
  cbn -[Z.mul Z.add Ascii.compare].
  intros Ex Ey.
  assert (Hx : x = 60 * (10 * a1 + a2) + 10 * a3 + a4) by congruence.
  assert (Hy : y = 60 * (10 * b1 + b2) + 10 * b3 + b4) by congruence.
  clear Ex Ey. subst x y.
  change (Ascii.compare ":" ":") with Eq.
  rewrite (ascii_compare_digits _ _ Ha1 Hb1), (ascii_compare_digits _ _ Ha2 Hb2),
    (ascii_compare_digits _ _ Ha3 Hb3), (ascii_compare_digits _ _ Ha4 Hb4).
  apply digit_val_spec in Ha1 as [_ ?], Ha2 as [_ ?], Ha3 as [_ ?], Ha4 as [_ ?],
      Hb1 as [_ ?], Hb2 as [_ ?], Hb3 as [_ ?], Hb4 as [_ ?].
  destruct (Z.compare_spec a1 b1); [| split; [lia | discriminate] | split; [congruence | lia]].
  destruct (Z.compare_spec a2 b2); [| split; [lia | discriminate] | split; [congruence | lia]].
  destruct (Z.compare_spec a3 b3); [| split; [lia | discriminate] | split; [congruence | lia]].
  destruct (Z.compare_spec a4 b4); [| split; [lia | discriminate] | split; [congruence | lia]].
  subst. split; [lia | discriminate].
Qed.

(** * Further properties of the code *)

(** ** What a create request changes *)

(** X1: a create request never touches the patients table and never changes
    or removes a stored appointment: the table afterwards is the table
    before followed by at most one new row, and by exactly one when, and
    only when, the answer is 201; any other answer leaves the database as it
    was. *)
Theorem create_only_appends (req_body : request_body) (w : world) :
  exists resp w' added,
    post_appointment req_body w = (Ok resp, w')
    /\ patients (db w') = patients (db w)
    /\ table (appointments (db w')) = (table (appointments (db w)) ++ added)%list
    /\ (status resp = 201 -> List.length added = 1%nat)
    /\ (status resp <> 201 -> added = [] /\ db w' = db w).
Proof.
  assert (same : forall resp calls,
             status resp <> 201 ->
             exists resp' w' added,
               (Ok resp, logged w calls) = (Ok resp', w')
               /\ patients (db w') = patients (db w)
               /\ table (appointments (db w')) = (table (appointments (db w)) ++ added)%list
               /\ (status resp' = 201 -> List.length added = 1%nat)
               /\ (status resp' <> 201 -> added = [] /\ db w' = db w)).
  { intros resp calls N. exists resp, (logged w calls), [].
    rewrite app_nil_r. simpl. repeat split; auto. intros E. contradiction. }
  rewrite post_appointment_run.
  destruct (validationResult req_body).
  2: { exists {| status := 400;
                 body := ValidationFailed "Validation failed" (v :: l) |}, w, [].
       rewrite app_nil_r. simpl. repeat split; auto. discriminate. }
  destruct (patients (db w)) as [ps |] eqn:P; [| apply same; simpl; discriminate].
  destruct (find _ ps); [| apply same; simpl; discriminate].
  destruct (appointments (db w)) as [apps |] eqn:A; [| apply same; simpl; discriminate].
  destruct (find _ apps); [apply same; simpl; discriminate |].
  match goal with |- context [if ?c then _ else _] => destruct c end;
    [apply same; simpl; discriminate |].
  do 3 eexists. split; [reflexivity |]. simpl.
  split; [reflexivity |]. split; [reflexivity |]. split; [reflexivity |].
  intros N. contradiction N. reflexivity.
Qed.

(** What a 201 answer tells about the request and the two worlds. *)
Lemma post_appointment_created (req_body : request_body) (w w' : world) (i : Z)
    (pid date time reason : value) (message : string) :
  post_appointment req_body w =
    (Ok {| status := 201; body := AppointmentCreated i pid date time reason message |}, w') ->
  exists ps apps p,
    patients (db w) = Some ps /\ appointments (db w) = Some apps
    /\ validationResult req_body = []
    /\ find (fun x => sql_eq (SInt (Patient.id x))
                             (apply_affinity (bind_param (PatientId req_body)))) ps = Some p
    /\ find (same_slot (apply_affinity (bind_param (PatientId req_body)))
                       (apply_affinity (bind_param (AppointmentDate req_body)))
                       (apply_affinity (bind_param (AppointmentTime req_body)))) apps = None
    /\ i = next_id (seq_appointments (db w)) (map Appointment.id apps)
    /\ db w' =
       {| patients := Some ps;
          appointments :=
            Some (apps ++
                  [{| Appointment.id := i;
                      Appointment.patient_id := apply_affinity (bind_param (PatientId req_body));
                      Appointment.appointment_date :=
                        apply_affinity (bind_param (AppointmentDate req_body));
                      Appointment.appointment_time :=
                        apply_affinity (bind_param (AppointmentTime req_body));
                      Appointment.reason := SText (trim (toString (Reason req_body)));
                      Appointment.status := Some "scheduled" |}])%list;
          seq_patients := seq_patients (db w);
          seq_appointments := i |}.
Proof.
  intros E. rewrite post_appointment_run in E.
  destruct (validationResult req_body); [| inv E].
  destruct (patients (db w)) as [ps |] eqn:P; [| inv E].
  destruct (find _ ps) as [p |] eqn:F; [| inv E].
  destruct (appointments (db w)) as [apps |] eqn:A; [| inv E].
  destruct (find _ apps) eqn:G; [inv E |].
  match type of E with context [if ?c then _ else _] => destruct c end; inv E.
  exists ps, apps, p. repeat split; assumption.
Qed.

Lemma next_id_older (seq : Z) (apps : list Appointment.t) :
  Forall (fun a => Appointment.id a < next_id seq (map Appointment.id apps)) apps.
Proof.
  apply Forall_forall. intros a I.
  pose proof (max_id_bound (map Appointment.id apps) (Appointment.id a) (in_map _ _ _ I)).
  unfold next_id. lia.
Qed.

(** X2: the id a 201 answer carries is larger than the id of every
    appointment stored before and than the table's counter, which it then
    becomes: ids grow and are never handed out twice. *)
Theorem created_id_is_fresh (req_body : request_body) (w w' : world) (i : Z)
    (pid date time reason : value) (message : string) (apps : list Appointment.t) :
  post_appointment req_body w =
    (Ok {| status := 201; body := AppointmentCreated i pid date time reason message |}, w') ->
  appointments (db w) = Some apps ->
  Forall (fun a => Appointment.id a < i) apps
  /\ seq_appointments (db w) < i
  /\ seq_appointments (db w') = i
  /\ exists row, appointments (db w') = Some (apps ++ [row])%list /\ Appointment.id row = i.
Proof.
  intros E A.
  apply post_appointment_created in E
    as (ps & apps' & p & P & A' & V & F & G & -> & D).
  rewrite A in A'. inv A'. rewrite D. simpl.
  split; [apply next_id_older |]. split; [unfold next_id; lia |].
  split; [reflexivity |]. eexists. split; reflexivity.
Qed.

(** ** Create, then read *)

Lemma Qeq_bool_inject_Z (a b : Z) : Qeq_bool (inject_Z a) (inject_Z b) = (a =? b).
Proof.
  destruct (Z.eqb_spec a b) as [-> | N].
  - apply Qeq_bool_refl.
  - destruct (Qeq_bool (inject_Z a) (inject_Z b)) eqn:E; [| reflexivity].
    apply Qeq_bool_iff in E. unfold Qeq in E. simpl in E. lia.
Qed.

Lemma find_filter_head (A : Type) (f : A -> bool) (l : list A) (x : A) :
  find f l = Some x -> exists rest, filter f l = x :: rest.
Proof.
  induction l as [| y l IH]; simpl; [discriminate |].
  destruct (f y) eqn:E.
  - intros H. inv H. eauto.
  - exact IH.
Qed.

Lemma join_patients_app (ps : list Patient.t) (l1 l2 : list Appointment.t) :
  join_patients ps (l1 ++ l2) = (join_patients ps l1 ++ join_patients ps l2)%list.
Proof. apply flat_map_app. Qed.

Lemma find_join_older (ps : list Patient.t) (apps : list Appointment.t) (i : Z) :
  Forall (fun a => Appointment.id a < i) apps ->
  find (fun ap => sql_eq (SInt (Appointment.id (fst ap))) (SNum (inject_Z i)))
       (join_patients ps apps) = None.
Proof.
  intros F. apply find_none_existsb. apply not_true_is_false. intros E.
  apply existsb_exists in E as ([a p] & I & E).
  apply in_join_patients in I as (Ia & _).
  pose proof (proj1 (Forall_forall _ _) F a Ia) as L. simpl in L, E.
  rewrite Qeq_bool_inject_Z in E. apply Z.eqb_eq in E. lia.
Qed.

Lemma find_by_id_in_join (ps : list Patient.t) (apps : list Appointment.t)
    (row : Appointment.t) (p : Patient.t) (rest : list Patient.t) :
  Forall (fun a => Appointment.id a < Appointment.id row) apps ->
  filter (fun x => sql_eq (Appointment.patient_id row) (SInt (Patient.id x))) ps = p :: rest ->
  find (fun ap => sql_eq (SInt (Appointment.id (fst ap)))
                         (SNum (inject_Z (Appointment.id row))))
       (join_patients ps (apps ++ [row])) = Some (row, p).
Proof.
  intros Old F. rewrite join_patients_app.
  rewrite (@find_app_none _ _ _ _ (find_join_older ps Old)).
  simpl. rewrite F. simpl. rewrite Qeq_bool_refl. reflexivity.
Qed.

(** X3: an appointment just created can be fetched by the id the 201 answer
    carried: the lookup of that id, written in decimal, answers 200 with the
    stored patient reference, date and time of the request, the trimmed
    reason, the status "scheduled", and the name, email and phone of the
    patient the create route had found. *)
Theorem created_then_fetched (req_body : request_body) (w w' : world) (i : Z)
    (pid date time reason : value) (message : string) (log' : list db_call) :
  post_appointment req_body w =
    (Ok {| status := 201; body := AppointmentCreated i pid date time reason message |}, w') ->
  numeric_affinity (string_of_Z i) = Some (inject_Z i) ->
  exists p,
    In p (table (patients (db w)))
    /\ sql_eq (SInt (Patient.id p)) (apply_affinity (bind_param (PatientId req_body))) = true
    /\ get_appointment (string_of_Z i) {| db := db w'; log := log' |} =
       (Ok {| status := 200;
              body := AppointmentDetails
                        {| dr_AppointmentId := i;
                           dr_PatientId := apply_affinity (bind_param (PatientId req_body));
                           dr_AppointmentDate :=
                             apply_affinity (bind_param (AppointmentDate req_body));
                           dr_AppointmentTime :=
                             apply_affinity (bind_param (AppointmentTime req_body));
                           dr_Reason := SText (trim (toString (Reason req_body)));
                           dr_status := Some "scheduled";
                           dr_PatientName := Patient.name p;
                           dr_PatientEmail := Patient.email p;
                           dr_PatientPhone := Patient.phone p |} |},
        {| db := db w';
           log := (log' ++ [SelectAppointmentById (SText (string_of_Z i))])%list |}).
Proof.
  intros E H.
  apply post_appointment_created in E as (ps & apps & p & P & A & V & F & G & -> & D).
  exists p. pose proof (find_some _ _ F) as [Ip Ep].
  rewrite P. split; [exact Ip |]. split; [exact Ep |]. rewrite D.
  apply find_filter_head in F as (rest & F).
  rewrite (filter_ext _ (fun x => sql_eq (apply_affinity (bind_param (PatientId req_body)))
                                         (SInt (Patient.id x))))
    in F by (intros x; apply sql_eq_sym).
  unfold get_appointment, catch, select_appointment, bind, record_call, read_db, ret.
  cbn -[sql_eq join_patients find string_of_Z append].
  rewrite H.
  match goal with
  | |- context [join_patients ps (apps ++ [?r])] =>
      pose proof (@find_by_id_in_join ps apps r p rest) as J
  end.
  cbn [Appointment.id Appointment.patient_id] in J.
  rewrite J; [reflexivity | apply next_id_older | exact F].
Qed.

Lemma filter_all (A : Type) (f : A -> bool) (l : list A) :
  (forall x, f x = true) -> filter f l = l.
Proof.
  intros H. induction l as [| x l IH]; simpl; [reflexivity |].
  rewrite H, IH. reflexivity.
Qed.

(** The rows of an unfiltered list request. *)
Lemma get_appointments_all (ps : list Patient.t) (apps : list Appointment.t) (w : world) :
  patients (db w) = Some ps -> appointments (db w) = Some apps ->
  get_appointments None None w =
    (Ok {| status := 200;
           body := AppointmentRows (order_by (map to_list_row (join_patients ps apps))) |},
     logged w [SelectAppointments []]).
Proof.
  intros P A.
  unfold get_appointments, catch, select_appointments, bind, record_call, read_db, ret, logged.
  simpl. rewrite A, P. rewrite filter_all by reflexivity. reflexivity.
Qed.

(** X4: an appointment just created shows up in the unfiltered list: with
    unique patient ids, the rows listed after a 201 are the rows listed
    before plus one row that carries the new id, the request's patient
    reference, date and time, the trimmed reason, the status "scheduled" and
    the name of the patient the create route had found; and they are in
    [ORDER BY] order again. *)
Theorem created_then_listed (req_body : request_body) (w w' : world) (i : Z)
    (pid date time reason : value) (message : string) (log0 log' : list db_call) :
  post_appointment req_body w =
    (Ok {| status := 201; body := AppointmentCreated i pid date time reason message |}, w') ->
  NoDup (map Patient.id (table (patients (db w)))) ->
  exists p rows rows',
    In p (table (patients (db w)))
    /\ sql_eq (SInt (Patient.id p)) (apply_affinity (bind_param (PatientId req_body))) = true
    /\ fst (get_appointments None None {| db := db w; log := log0 |}) =
       Ok {| status := 200; body := AppointmentRows rows |}
    /\ fst (get_appointments None None {| db := db w'; log := log' |}) =
       Ok {| status := 200; body := AppointmentRows rows' |}
    /\ Permutation rows'
         ({| lr_AppointmentId := i;
             lr_PatientId := apply_affinity (bind_param (PatientId req_body));
             lr_AppointmentDate := apply_affinity (bind_param (AppointmentDate req_body));
             lr_AppointmentTime := apply_affinity (bind_param (AppointmentTime req_body));
             lr_Reason := SText (trim (toString (Reason req_body)));
             lr_status := Some "scheduled";
             lr_PatientName := Patient.name p |} :: rows)
    /\ Sorted date_then_time rows'.
Proof.
  intros E N.
  apply post_appointment_created in E as (ps & apps & p & P & A & V & F & G & -> & D).
  rewrite P in N |- *. simpl in N |- *.
  pose proof (find_some _ _ F) as [Ip Ep].
  exists p. do 2 eexists.
  split; [exact Ip |]. split; [exact Ep |].
  rewrite (@get_appointments_all ps apps {| db := db w; log := log0 |} P A).
  rewrite D.
  erewrite (@get_appointments_all ps _ {| db := _; log := log' |}) by reflexivity.
  split; [reflexivity |]. split; [reflexivity |].
  split; [| apply order_by_sorted].
  rewrite order_by_perm, join_patients_app, map_app. simpl.
  rewrite (@referenced_patients _ _ N p Ip) by (rewrite sql_eq_sym; exact Ep).
  simpl. rewrite <- Permutation_cons_append.
  constructor. symmetry. apply order_by_perm.
Qed.

(** ** Stores the service reaches *)

Lemma after_requests_snoc (s : database) (reqs : list request_body) (b : request_body) :
  after_requests s (reqs ++ [b]) =
  db (snd (post_appointment b (serving (after_requests s reqs)))).
Proof.
  unfold after_requests. rewrite fold_left_app. reflexivity.
Qed.


(** A create request either leaves the database alone or appends one row
    for a request that passed the gate and names a stored patient. *)
Lemma post_appointment_db (b : request_body) (w : world) :
  db (snd (post_appointment b w)) = db w
  \/ exists ps apps p,
       patients (db w) = Some ps /\ appointments (db w) = Some apps
       /\ validationResult b = [] /\ In p ps
       /\ sql_eq (apply_affinity (bind_param (PatientId b))) (SInt (Patient.id p)) = true
       /\ db (snd (post_appointment b w)) =
          {| patients := Some ps;
             appointments :=
               Some (apps ++
                     [{| Appointment.id :=
                           next_id (seq_appointments (db w)) (map Appointment.id apps);
                         Appointment.patient_id := apply_affinity (bind_param (PatientId b));
                         Appointment.appointment_date :=
                           apply_affinity (bind_param (AppointmentDate b));
                         Appointment.appointment_time :=
                           apply_affinity (bind_param (AppointmentTime b));
                         Appointment.reason := SText (trim (toString (Reason b)));
                         Appointment.status := Some "scheduled" |}])%list;
             seq_patients := seq_patients (db w);
             seq_appointments := next_id (seq_appointments (db w)) (map Appointment.id apps) |}.
Proof.
  rewrite post_appointment_run.
  destruct (validationResult b); [| left; reflexivity].
  destruct (patients (db w)) as [ps |] eqn:P; [| left; reflexivity].
  destruct (find _ ps) as [p |] eqn:F; [| left; reflexivity].
  destruct (appointments (db w)) as [apps |] eqn:A; [| left; reflexivity].
  destruct (find _ apps); [left; reflexivity |].
  match goal with |- context [if ?c then _ else _] => destruct c end; [left; reflexivity |].
  right. exists ps, apps, p. apply find_some in F as [I E].
  repeat split; try assumption. rewrite sql_eq_sym. exact E.
Qed.

Lemma max_id_app (l1 l2 : list Z) : max_id (l1 ++ l2) = Z.max (max_id l1) (max_id l2).
Proof.
  induction l1 as [| x l1 IH]; simpl.
  - assert (0 <= max_id l2) by (induction l2; simpl; lia). lia.
  - rewrite IH. lia.
Qed.

Lemma first_ids_S (n : nat) : first_ids (S n) = (first_ids n ++ [Z.of_nat (S n)])%list.
Proof.
  unfold first_ids. rewrite seq_S, map_app. reflexivity.
Qed.

Lemma max_id_first_ids (n : nat) : max_id (first_ids n) = Z.of_nat n.
Proof.
  induction n as [| n IH]; [reflexivity |].
  rewrite first_ids_S, max_id_app, IH. simpl. lia.
Qed.

(** X5: counted from a fresh start, the stored appointments carry the ids
    1, 2, ..., n in the order they were created, and the table's counter is
    n. *)
Theorem ids_count_up (s : database) :
  reachable s ->
  exists n, map Appointment.id (table (appointments s)) = first_ids n
            /\ seq_appointments s = Z.of_nat n.
Proof.
  induction 1 as [| s b R (n & I & C)].
  - exists 0%nat. rewrite initializeDatabase_fresh. split; reflexivity.
  - destruct (post_appointment_db b {| db := s; log := [] |})
      as [-> | (ps & apps & p & P & A & _ & _ & _ & ->)].
    + exists n. split; assumption.
    + cbn [db table appointments seq_appointments] in *. rewrite A in I.
      cbn [table] in I.
      exists (S n). rewrite map_app, I, first_ids_S. unfold next_id.
      rewrite max_id_first_ids, C. cbn [map Appointment.id].
      split; [do 2 f_equal |]; lia.
Qed.



(** ** Trimming and the reason rule *)

Lemma ltrim_head (s : string) (c : ascii) (t : string) :
  ltrim s = String c t -> is_space c = false.
Proof.
  induction s as [| a s IH]; simpl; [discriminate |].
  destruct (is_space a) eqn:E; [exact IH |].
  intros H. inv H. exact E.
Qed.

Lemma ltrim_clean (c : ascii) (t : string) :
  is_space c = false -> ltrim (String c t) = String c t.
Proof. intros E. simpl. rewrite E. reflexivity. Qed.

Lemma rtrim_idem (s : string) : rtrim (rtrim s) = rtrim s.
Proof.
  induction s as [| a s IH]; [reflexivity |].
  simpl. destruct (rtrim s) as [| d t] eqn:E.
  - destruct (is_space a) eqn:Sa; simpl; [reflexivity |]. rewrite Sa. reflexivity.
  - change (rtrim (String a (String d t))) with
      (match rtrim (String d t) with
       | EmptyString => if is_space a then EmptyString else String a EmptyString
       | String x y => String a (String x y)
       end).
    rewrite IH. reflexivity.
Qed.

Lemma rtrim_head (c : ascii) (s : string) :
  is_space c = false -> exists t, rtrim (String c s) = String c t.
Proof.
  intros E. simpl. destruct (rtrim s); [rewrite E |]; eauto.
Qed.

Lemma trim_idem (s : string) : trim (trim s) = trim s.
Proof.
  unfold trim. destruct (ltrim s) as [| c t] eqn:L; [reflexivity |].
  pose proof (@ltrim_head s _ _ L) as E.
  destruct (@rtrim_head c t E) as (t' & R).
  rewrite R, (@ltrim_clean c t' E), <- R. apply rtrim_idem.
Qed.

Lemma rtrim_last (s : string) :
  forall t c, rtrim s = t ++ String c "" -> is_space c = false.
Proof.
  induction s as [| a s IH]; simpl; intros t c H.
  - destruct t; discriminate.
  - destruct (rtrim s) as [| d r] eqn:E.
    + destruct (is_space a) eqn:Sa.
      * destruct t; discriminate.
      * destruct t as [| x t]; simpl in H; inv H; [assumption |].
        destruct t; discriminate.
    + destruct t as [| x t]; simpl in H; inv H.
      apply (IH t c). assumption.
Qed.

Lemma ltrim_all_space (s : string) : all_space s = true -> ltrim s = "".
Proof.
  induction s as [| a s IH]; simpl; [reflexivity |].
  intros H. apply andb_true_iff in H as [Sa H]. rewrite Sa. apply IH, H.
Qed.

(** X7: the reason rule looks at the trimmed text only: a reason made of
    white space alone is rejected; trimming a trimmed text changes nothing;
    and a trimmed text begins and ends with a character that is not white
    space. *)
Theorem reason_is_judged_trimmed :
  (forall s p d t,
      all_space s = true ->
      Reason_ok {| PatientId := p; AppointmentDate := d; AppointmentTime := t;
                   Reason := VStr s |} = false)
  /\ (forall s, trim (trim s) = trim s)
  /\ (forall s c rest, trim s = String c rest -> is_space c = false)
  /\ (forall s front c, trim s = front ++ String c "" -> is_space c = false).
Proof.
  repeat split.
  - intros s p d t H. unfold Reason_ok, trim. simpl.
    rewrite (@ltrim_all_space s H). reflexivity.
  - exact trim_idem.
  - intros s c rest H. unfold trim in H.
    destruct (ltrim s) as [| a u] eqn:L; [discriminate |].
    pose proof (@ltrim_head s _ _ L) as E.
    destruct (@rtrim_head a u E) as (t' & R). rewrite R in H. inv H. exact E.
  - intros s front c H. exact (@rtrim_last (ltrim s) front c H).
Qed.

Lemma validationResult_nil (b : request_body) :
  validationResult b = [] <->
  PatientId_ok b = true /\ AppointmentDate_ok b = true
  /\ AppointmentTime_ok b = true /\ Reason_ok b = true.
Proof.
  unfold validationResult, check.
  destruct (PatientId_ok b), (AppointmentDate_ok b), (AppointmentTime_ok b), (Reason_ok b);
    simpl; split; intros H; try discriminate; try tauto;
    destruct H as (? & ? & ? & ?); discriminate.
Qed.

(** X8: every appointment in a store the service reaches has the status
    "scheduled" and a reason that is a trimmed text of 1 to 500
    characters. *)
Theorem stored_rows_are_well_formed (s : database) :
  reachable s ->
  Forall (fun a =>
            Appointment.status a = Some "scheduled"
            /\ exists r, Appointment.reason a = SText r
                         /\ trim r = r
                         /\ (1 <= String.length r <= 500)%nat)
         (table (appointments s)).
Proof.
  induction 1 as [| s b R IH].
  - rewrite initializeDatabase_fresh. constructor.
  - destruct (post_appointment_db b {| db := s; log := [] |})
      as [-> | (ps & apps & p & P & A & V & _ & _ & ->)]; [exact IH |].
    cbn [db table appointments] in *. rewrite A in IH. cbn [table] in IH.
    apply Forall_app. split; [exact IH |].
    constructor; [| constructor]. cbn. split; [reflexivity |].
    eexists. split; [reflexivity |]. split; [apply trim_idem |].
    apply validationResult_nil in V as (_ & _ & _ & V).
    unfold Reason_ok, isLength_1_500 in V.
    apply andb_true_iff in V as [V1 V2].
    apply Z.leb_le in V1, V2. lia.
Qed.

(** ** Reading, and serving after start-up *)

(** X9: the two read routes issue exactly one storage call each and leave
    the database as it is, whatever they are asked and whatever they
    answer. *)
Theorem read_routes_change_nothing (patientId date : option string) (appointmentId : string)
    (w : world) :
  snd (get_appointments patientId date w) =
    logged w [SelectAppointments (build_conditions patientId date)]
  /\ snd (get_appointment appointmentId w) =
     logged w [SelectAppointmentById (SText appointmentId)].
Proof.
  unfold get_appointments, get_appointment, catch, select_appointments, select_appointment,
    bind, record_call, read_db, fail, ret, logged.
  simpl. destruct (appointments (db w)), (patients (db w)); simpl;
    try (split; reflexivity).
  destruct (find _ _); split; reflexivity.
Qed.

Lemma initializeDatabase_resolves (s : database) :
  fst (initializeDatabase s) = Ok tt
  /\ exists p ps apps,
       patients (snd (initializeDatabase s)) = Some (p :: ps)
       /\ appointments (snd (initializeDatabase s)) = Some apps.
Proof.
  destruct s as [[[| p ps] |] [apps |] sp sa]; simpl;
    (split; [reflexivity | do 3 eexists; split; reflexivity]).
Qed.

Lemma after_requests_tables (s : database) (reqs : list request_body) :
  (exists ps, patients s = Some ps) -> (exists apps, appointments s = Some apps) ->
  (exists ps, patients (after_requests s reqs) = Some ps)
  /\ (exists apps, appointments (after_requests s reqs) = Some apps).
Proof.
  intros P A. induction reqs as [| b reqs [IP IA]] using rev_ind; [split; assumption |].
  rewrite after_requests_snoc.
  destruct (post_appointment_db b (serving (after_requests s reqs)))
    as [-> | (ps & apps & p & _ & _ & _ & _ & _ & ->)]; simpl; eauto.
Qed.

Lemma valid_params_not_null (b : request_body) :
  validationResult b = [] ->
  is_null (bind_param (PatientId (sanitize b)))
  || is_null (bind_param (AppointmentDate (sanitize b)))
  || is_null (bind_param (AppointmentTime (sanitize b)))
  || is_null (bind_param (Reason (sanitize b))) = false.
Proof.
  intros V. apply validationResult_nil in V as (Vp & Vd & Vt & _).
  unfold PatientId_ok, AppointmentDate_ok, AppointmentTime_ok in *. simpl.
  destruct (PatientId b); try discriminate Vp;
    destruct (AppointmentDate b); try discriminate Vd;
    destruct (AppointmentTime b); try discriminate Vt; reflexivity.
Qed.

(** X10: the server always gets to listen, and from then on, after any
    sequence of create requests, no route answers 500 for want of a table
    or of a required column: a create request is answered 201, 400, 404 or
    409, a list request 200, a lookup 200 or 404. *)
Theorem no_storage_error_once_started (s0 : database) (reqs : list request_body)
    (log0 : list db_call) :
  let w := {| db := after_requests (snd (start_server s0)) reqs; log := log0 |} in
  fst (start_server s0) = Listening
  /\ (forall b, exists resp w',
         post_appointment b w = (Ok resp, w') /\ In (status resp) [201; 400; 404; 409])
  /\ (forall patientId date, exists rows,
         fst (get_appointments patientId date w) =
         Ok {| status := 200; body := AppointmentRows rows |})
  /\ (forall appointmentId, exists resp,
         fst (get_appointment appointmentId w) = Ok resp /\ In (status resp) [200; 404]).
Proof.
  intros w.
  destruct (initializeDatabase_resolves s0) as (I & p & ps & apps & P & A).
  assert (S1 : start_server s0 = (Listening, snd (initializeDatabase s0))).
  { unfold start_server. destruct (initializeDatabase s0) as [[u | e] s1]; simpl in *;
      [reflexivity | discriminate]. }
  destruct (@after_requests_tables (snd (initializeDatabase s0)) reqs
              (ex_intro _ _ P) (ex_intro _ _ A)) as [[ps' P'] [apps' A']].
  subst w. rewrite S1. simpl. split; [reflexivity |]. split; [| split].
  - intros b. rewrite post_appointment_run. cbn [db]. rewrite P', A'.
    destruct (validationResult b) eqn:V; [| do 2 eexists; split; [reflexivity | simpl; auto]].
    destruct (find _ ps'); [| do 2 eexists; split; [reflexivity | simpl; auto]].
    destruct (find _ apps'); [do 2 eexists; split; [reflexivity | simpl; auto] |].
    rewrite (valid_params_not_null b V).
    do 2 eexists; split; [reflexivity | simpl; auto].
  - intros patientId date.
    unfold get_appointments, catch, select_appointments, bind, record_call, read_db, ret.
    simpl. rewrite A', P'. eexists. reflexivity.
  - intros appointmentId.
    unfold get_appointment, catch, select_appointment, bind, record_call, read_db, ret.
    simpl. rewrite A', P'.
    destruct (find _ _); simpl; eexists; (split; [reflexivity | simpl; auto]).
Qed.

(** X11: initialisation keeps what it finds: the appointments and their
    counter are untouched, every patient row already there is still there,
    and afterwards both tables exist and the patients table is not
    empty. *)
Theorem initializeDatabase_keeps_data (s : database) :
  let s1 := snd (initializeDatabase s) in
  table (appointments s1) = table (appointments s)
  /\ seq_appointments s1 = seq_appointments s
  /\ (forall p, In p (table (patients s)) -> In p (table (patients s1)))
  /\ (exists p ps apps, patients s1 = Some (p :: ps) /\ appointments s1 = Some apps).
Proof.
  destruct s as [[[| p ps] |] [apps |] sp sa]; simpl;
    repeat split; try (intros ? []); auto; do 3 eexists; split; reflexivity.
Qed.


(** ** The patient rule *)





Lemma int_of_string_unsigned (c : ascii) (s : string) :
  c <> "-"%char -> c <> "+"%char ->
  int_of_string (String c s) = unsigned_of_string (String c s).
Proof.
  intros N1 N2.
  destruct c as [[] [] [] [] [] [] [] []]; try reflexivity;
    first [contradiction N1; reflexivity | contradiction N2; reflexivity].
Qed.







(** ** The date rule *)

Lemma digit_not_separator (c : ascii) (a : Z) :
  digit_val c = Some a ->
  Ascii.eqb c "/" = false /\ Ascii.eqb c "-" = false /\ c <> "-"%char /\ c <> "+"%char.
Proof.
  intros H. repeat split.
  - destruct (Ascii.eqb_spec c "/") as [-> |]; [discriminate H | reflexivity].
  - destruct (Ascii.eqb_spec c "-") as [-> |]; [discriminate H | reflexivity].
  - intros ->. discriminate H.
  - intros ->. discriminate H.
Qed.

Lemma starts_with_hyphen_eqb (c : ascii) (s : string) :
  IsDate.starts_with_hyphen (String c s) = Ascii.eqb c "-".
Proof.
  destruct c as [[] [] [] [] [] [] [] []]; reflexivity.
Qed.

(** X14: a text of four digits, two digits and two digits, separated twice
    by [-] or twice by [/], passes the date rule exactly when the month is
    1 to 12 and the day exists in that month of that year (February has 29
    days in leap years only). *)
Theorem date_rule_accepts_calendar_dates
    (y1 y2 y3 y4 m1 m2 d1 d2 sep : ascii) (a1 a2 a3 a4 b1 b2 e1 e2 : Z) :
  digit_val y1 = Some a1 -> digit_val y2 = Some a2 ->
  digit_val y3 = Some a3 -> digit_val y4 = Some a4 ->
  digit_val m1 = Some b1 -> digit_val m2 = Some b2 ->
  digit_val d1 = Some e1 -> digit_val d2 = Some e2 ->
  sep = "-"%char \/ sep = "/"%char ->
  let year := 1000 * a1 + 100 * a2 + 10 * a3 + a4 in
  let month := 10 * b1 + b2 in
  let day := 10 * e1 + e2 in
  IsDate.isDate
    (String y1 (String y2 (String y3 (String y4 (String sep
       (String m1 (String m2 (String sep (String d1 (String d2 "")))))))))) = true
  <-> 1 <= month <= 12 /\ 1 <= day <= IsDate.days_in_month year month.
Proof.
  intros Hy1 Hy2 Hy3 Hy4 Hm1 Hm2 Hd1 Hd2 Hs year month day.
  destruct (digit_not_separator _ Hy1) as (Sy1 & Ty1 & _ & _).
  destruct (digit_not_separator _ Hy2) as (Sy2 & Ty2 & _ & _).
  destruct (digit_not_separator _ Hy3) as (Sy3 & Ty3 & _ & _).
  destruct (digit_not_separator _ Hy4) as (Sy4 & Ty4 & _ & _).
  destruct (digit_not_separator _ Hm1) as (Sm1 & Tm1 & _ & _).
  destruct (digit_not_separator _ Hm2) as (Sm2 & Tm2 & _ & _).
  destruct (digit_not_separator _ Hd1) as (Sd1 & Td1 & Nd1 & Pd1).
  destruct (digit_not_separator _ Hd2) as (Sd2 & Td2 & _ & _).
  assert (E : IsDate.isDate
                (String y1 (String y2 (String y3 (String y4 (String sep
                   (String m1 (String m2 (String sep (String d1 (String d2 "")))))))))) =
              ((1 <=? month) && (month <=? 12) && (1 <=? day)
               && (day <=? IsDate.days_in_month year month))).
  { unfold IsDate.isDate.
    assert (F : IsDate.fill
                 (combine [String y1 (String y2 (String y3 (String y4 "")));
                           String m1 (String m2 ""); String d1 (String d2 "")]
                          IsDate.format_words)
                 {| IsDate.y := None; IsDate.m := None; IsDate.d := None |} =
               Some {| IsDate.y := Some (String y1 (String y2 (String y3 (String y4 ""))));
                       IsDate.m := Some (String m1 (String m2 ""));
                       IsDate.d := Some (String d1 (String d2 "")) |})
      by reflexivity.
    assert (Sp : IsDate.split_opt
                   (find (fun c => IsDate.includes c
                      (String y1 (String y2 (String y3 (String y4 (String sep
                         (String m1 (String m2 (String sep (String d1 (String d2 "")))))))))))
                      IsDate.delimiters)
                   (String y1 (String y2 (String y3 (String y4 (String sep
                      (String m1 (String m2 (String sep (String d1 (String d2 "")))))))))) =
                 [String y1 (String y2 (String y3 (String y4 "")));
                  String m1 (String m2 ""); String d1 (String d2 "")]).
    { destruct Hs as [-> | ->]; cbn;
        rewrite ?Sy1, ?Sy2, ?Sy3, ?Sy4, ?Sm1, ?Sm2, ?Sd1, ?Sd2,
          ?Ty1, ?Ty2, ?Ty3, ?Ty4, ?Tm1, ?Tm2, ?Td1, ?Td2; cbn;
        rewrite ?Sy1, ?Sy2, ?Sy3, ?Sy4, ?Sm1, ?Sm2, ?Sd1, ?Sd2,
          ?Ty1, ?Ty2, ?Ty3, ?Ty4, ?Tm1, ?Tm2, ?Td1, ?Td2; reflexivity. }
    rewrite Sp, F. cbn [IsDate.y IsDate.m IsDate.d].
    rewrite starts_with_hyphen_eqb, Ty1.
    rewrite (int_of_string_unsigned (String d2 "") Nd1 Pd1).
    unfold IsDate.getUTCDate, unsigned_of_string.
    cbn -[Z.mul Z.add IsDate.days_in_month Z.leb Z.eqb].
    rewrite Hy1, Hy2, Hy3, Hy4, Hm1, Hm2, Hd1, Hd2.
    cbn -[Z.mul Z.add IsDate.days_in_month Z.leb Z.eqb].
    replace (10 * (10 * (10 * (10 * 0 + a1) + a2) + a3) + a4) with year by (unfold year; lia).
    replace (10 * (10 * 0 + b1) + b2) with month by (unfold month; lia).
    replace (10 * (10 * 0 + e1) + e2) with day by (unfold day; lia).
    destruct ((1 <=? month) && (month <=? 12) && (1 <=? day)
              && (day <=? IsDate.days_in_month year month)); [apply Z.eqb_refl | reflexivity]. }
  rewrite E, !andb_true_iff, !Z.leb_le. tauto.
Qed.

(** ** Filters and order of the list route *)

Lemma Permutation_filter (A : Type) (f : A -> bool) (l l' : list A) :
  Permutation l l' -> Permutation (filter f l) (filter f l').
Proof.
  induction 1 as [| x l l' P IH | x y l | l l' l'' P1 IH1 P2 IH2]; simpl.
  - constructor.
  - destruct (f x); [constructor |]; exact IH.
  - destruct (f x), (f y); try reflexivity. apply perm_swap.
  - etransitivity; eassumption.
Qed.

Lemma filter_map_comm (A B : Type) (f : A -> B) (g : B -> bool) (l : list A) :
  filter g (map f l) = map f (filter (fun x => g (f x)) l).
Proof.
  induction l as [| x l IH]; simpl; [reflexivity |].
  destruct (g (f x)); simpl; rewrite IH; reflexivity.
Qed.

Lemma filter_filter (A : Type) (f g : A -> bool) (l : list A) :
  filter f (filter g l) = filter (fun x => g x && f x) l.
Proof.
  induction l as [| x l IH]; simpl; [reflexivity |].
  destruct (g x); simpl; [destruct (f x) |]; rewrite IH; reflexivity.
Qed.

(** The rows a list request answers with, when both tables exist. *)
Lemma get_appointments_rows (patientId date : option string) (w : world)
    (rows : list list_row) :
  fst (get_appointments patientId date w) =
    Ok {| status := 200; body := AppointmentRows rows |} ->
  exists ps apps,
    patients (db w) = Some ps /\ appointments (db w) = Some apps
    /\ rows = order_by (map to_list_row
                          (filter (fun ap => wanted patientId date (fst ap))
                                  (join_patients ps apps))).
Proof.
  unfold get_appointments, catch, select_appointments, bind, record_call, read_db, fail, ret.
  simpl. destruct (appointments (db w)) as [apps |], (patients (db w)) as [ps |]; simpl;
    intros H; inv H.
  exists ps, apps. repeat split.
  rewrite (filter_ext _ (fun ap => wanted patientId date (fst ap)))
    by (intros ap; apply build_conditions_wanted).
  reflexivity.
Qed.

(** X15: the two filters of the list route combine as successive
    selections: the rows listed for a patient filter and a date filter
    together are, up to order, the rows listed for the patient filter alone
    whose date equals the date filter, and also the rows listed for the date
    filter alone whose patient reference equals the patient filter. *)
Theorem filters_compose (patientId date : option string) (w : world)
    (both by_patient by_date : list list_row) :
  fst (get_appointments patientId date w) =
    Ok {| status := 200; body := AppointmentRows both |} ->
  fst (get_appointments patientId None w) =
    Ok {| status := 200; body := AppointmentRows by_patient |} ->
  fst (get_appointments None date w) =
    Ok {| status := 200; body := AppointmentRows by_date |} ->
  Permutation both (filter (date_matches date) by_patient)
  /\ Permutation both (filter (patient_matches patientId) by_date).
Proof.
  intros H1 H2 H3.
  apply get_appointments_rows in H1 as (ps & apps & P & A & ->).
  apply get_appointments_rows in H2 as (ps2 & apps2 & P2 & A2 & ->).
  apply get_appointments_rows in H3 as (ps3 & apps3 & P3 & A3 & ->).
  rewrite P in P2, P3. rewrite A in A2, A3. inv P2. inv P3. inv A2. inv A3.
  split.
  - rewrite (Permutation_filter _ (order_by_perm _)), order_by_perm.
    rewrite filter_map_comm, filter_filter.
    erewrite filter_ext; [reflexivity |].
    intros [a p]. unfold wanted, date_matches. simpl.
    destruct (truthy patientId), (truthy date); simpl; rewrite ?andb_true_r; reflexivity.
  - rewrite (Permutation_filter _ (order_by_perm _)), order_by_perm.
    rewrite filter_map_comm, filter_filter.
    erewrite filter_ext; [reflexivity |].
    intros [a p]. unfold wanted, patient_matches. simpl.
    destruct (truthy patientId), (truthy date); simpl;
      rewrite ?andb_true_r; try reflexivity; apply andb_comm.
Qed.

Lemma sql_compare_refl (v : sqlval) : sql_compare v v = Eq.
Proof.
  pose proof (sql_compare_antisym v v) as H.
  destruct (sql_compare v v); [reflexivity | discriminate ..].
Qed.

Lemma Sorted_adjacent (A : Type) (R : A -> A -> Prop) (front : list A) :
  forall l x y back, Sorted R l -> l = (front ++ x :: y :: back)%list -> R x y.
Proof.
  induction front as [| z front IH]; intros l x y back S E; subst l; simpl in S.
  - inv S. match goal with H : HdRel _ _ _ |- _ => inv H end. assumption.
  - inv S. eapply IH; [eassumption | reflexivity].
Qed.

(** X16: where two neighbouring rows of a list answer have the same stored
    date and times that are both written [HH:MM], the earlier time of day
    comes first. *)
Theorem padded_times_listed_in_time_order (patientId date : option string) (w : world)
    (rows front back : list list_row) (r1 r2 : list_row) (s t : string) (x y : Z) :
  fst (get_appointments patientId date w) =
    Ok {| status := 200; body := AppointmentRows rows |} ->
  rows = (front ++ r1 :: r2 :: back)%list ->
  lr_AppointmentDate r1 = lr_AppointmentDate r2 ->
  lr_AppointmentTime r1 = SText s -> lr_AppointmentTime r2 = SText t ->
  spec_HH_MM s -> spec_HH_MM t ->
  minutes_of_day (SText s) = Some x -> minutes_of_day (SText t) = Some y ->
  x <= y.
Proof.
  intros H E D T1 T2 S1 S2 M1 M2.
  apply get_appointments_rows in H as (ps & apps & _ & _ & H).
  pose proof (order_by_sorted
                (map to_list_row
                   (filter (fun ap => wanted patientId date (fst ap))
                           (join_patients ps apps)))) as So.
  rewrite <- H in So.
  pose proof (@Sorted_adjacent _ _ front rows r1 r2 back So E) as [L | [_ G]].
  - rewrite D, sql_compare_refl in L. discriminate.
  - rewrite T1, T2 in G.
    exact (proj1 (@padded_times_compare_by_minutes s t x y S1 S2 M1 M2) G).
Qed.

(** ** The application *)

Lemma post_appointment_changed (b : request_body) (w : world) :
  db (snd (post_appointment b w)) <> db w ->
  exists resp, fst (post_appointment b w) = Ok resp /\ status resp = 201.
Proof.
  rewrite post_appointment_run.
  repeat match goal with
         | |- context [match ?x with _ => _ end] => destruct x
         end; simpl; intros N; try (contradiction N; reflexivity).
  eexists. split; reflexivity.
Qed.

Lemma served (handler : M response) (w : world) (r : response) (w' : world) :
  handler w = (Ok r, w') ->
  (r' <- handler ;; ret (Json (status r') (FromRoute (body r')))) w =
  (Ok (Json (status r) (FromRoute (body r))), w').
Proof.
  intros H. unfold bind, ret. rewrite H. reflexivity.
Qed.

(** X17: the only request that changes the database is a [POST] to
    [/api/appointments] (in any letter case) that is answered 201; every
    other request, whatever its method, path, query and body, leaves the
    database as it was. *)
Theorem only_a_created_appointment_changes_the_store (rq : http_request) (w : world) :
  db (snd (server rq w)) <> db w ->
  rq_method rq = POST
  /\ mounted (rq_path rq) = Some []
  /\ exists b resp,
       rq_json rq = Ok b
       /\ fst (post_appointment b w) = Ok resp /\ status resp = 201
       /\ fst (server rq w) = Ok (Json 201 (FromRoute (body resp)))
       /\ db (snd (server rq w)) = db (snd (post_appointment b w)).
Proof.
  unfold server. intros N.
  destruct (rq_method rq) eqn:Me;
    try (contradiction N; reflexivity);
    (destruct (rq_json rq) as [b | e] eqn:J; [| contradiction N; reflexivity]);
    (destruct (rq_path rq) as [| first path] eqn:Pa; [contradiction N; reflexivity |]);
    (destruct (segment_is "api-docs" first); [contradiction N; reflexivity |]);
    (destruct (mounted (first :: path)) as [rest |] eqn:Mo;
     [| destruct path; [destruct (segment_is "health" first) |];
        contradiction N; reflexivity]);
    unfold appointmentRoutes in N |- *; rewrite Me in N |- *;
    destruct rest as [| [| c s] [| x rest]];
    try (destruct path; [destruct (segment_is "health" first) |];
         contradiction N; reflexivity).
  - exfalso. apply N.
    destruct (get_appointments (rq_patientId rq) (rq_date rq) w) as [[r | e] w'] eqn:G.
    + rewrite (served _ _ G). simpl.
      pose proof (get_appointments_readonly (rq_patientId rq) (rq_date rq) w) as R.
      rewrite G in R. exact R.
    + unfold bind. rewrite G. simpl.
      pose proof (get_appointments_readonly (rq_patientId rq) (rq_date rq) w) as R.
      rewrite G in R. exact R.
  - exfalso. apply N.
    destruct (get_appointment (String c s) w) as [[r | e] w'] eqn:G.
    + rewrite (served _ _ G). simpl.
      pose proof (get_appointment_readonly (String c s) w) as R.
      rewrite G in R. exact R.
    + unfold bind. rewrite G. simpl.
      pose proof (get_appointment_readonly (String c s) w) as R.
      rewrite G in R. exact R.
  - destruct (post_appointment b w) as [[r | e] w'] eqn:G.
    + rewrite (served _ _ G) in N |- *. simpl in N |- *.
      assert (N' : db (snd (post_appointment b w)) <> db w) by (rewrite G; exact N).
      apply post_appointment_changed in N' as (resp & E & St).
      rewrite G in E. simpl in E. inv E.
      repeat split. exists b, resp. rewrite St, G. repeat split.
    + exfalso. unfold post_appointment, catch in G.
      match type of G with
      | context [match ?c w with _ => _ end] => destruct (c w) as [[r | e'] w'']
      end; discriminate G.
Qed.

Lemma lower_is (literal segment : string) :
  segment_is literal segment = true -> lower segment = literal.
Proof. unfold segment_is. apply String.eqb_eq. Qed.

(** X18: a [GET] of [/health], in any letter case and with any query, is
    answered 200 with the status "OK" without a storage call, whatever the
    database holds, even when its tables do not exist. *)
Theorem health_check_needs_no_store (rq : http_request) (b : request_body)
    (segment : string) (w : world) :
  rq_method rq = GET ->
  rq_json rq = Ok b ->
  rq_path rq = [segment] ->
  segment_is "health" segment = true ->
  server rq w = (Ok (Json 200 (Health "OK" "Appointment Management API is running")), w).
Proof.
  intros Me J Pa H. unfold server, mounted. rewrite Me, J, Pa.
  pose proof (lower_is _ _ H) as L.
  unfold segment_is at 1. rewrite L. simpl. rewrite H. reflexivity.
Qed.

(** ** Integrity of any store *)


(** ** When a create request succeeds, and a filter that matches nothing *)

(** X20: a request that passes the gate, names a stored patient and asks for
    a slot no stored appointment of that patient has is always answered 201
    with a new id, and its row ends up last in the table. *)
Theorem free_slot_is_booked (b : request_body) (w : world)
    (ps : list Patient.t) (apps : list Appointment.t) (p : Patient.t) :
  validationResult b = [] ->
  patients (db w) = Some ps ->
  appointments (db w) = Some apps ->
  In p ps ->
  sql_eq (SInt (Patient.id p)) (apply_affinity (bind_param (PatientId b))) = true ->
  (forall a, In a apps ->
             same_slot (apply_affinity (bind_param (PatientId b)))
                       (apply_affinity (bind_param (AppointmentDate b)))
                       (apply_affinity (bind_param (AppointmentTime b))) a = false) ->
  exists i w',
    post_appointment b w =
      (Ok {| status := 201;
             body := AppointmentCreated i (PatientId b) (AppointmentDate b) (AppointmentTime b)
                       (VStr (trim (toString (Reason b))))
                       "Appointment created successfully" |}, w')
    /\ Forall (fun a => Appointment.id a < i) apps
    /\ appointments (db w') =
       Some (apps ++
             [{| Appointment.id := i;
                 Appointment.patient_id := apply_affinity (bind_param (PatientId b));
                 Appointment.appointment_date :=
                   apply_affinity (bind_param (AppointmentDate b));
                 Appointment.appointment_time :=
                   apply_affinity (bind_param (AppointmentTime b));
                 Appointment.reason := SText (trim (toString (Reason b)));
                 Appointment.status := Some "scheduled" |}])%list.
Proof.
  intros V P A Ip Ep Free.
  rewrite post_appointment_run, V, P, A.
  destruct (find _ ps) as [x |] eqn:F.
  2: { pose proof (find_none _ _ F p Ip) as Np. simpl in Np, Ep.
       rewrite Ep in Np. discriminate. }
  destruct (find _ apps) as [a |] eqn:G.
  1: { apply find_some in G as [Ia Ea]. simpl in Ea.
       rewrite (Free a Ia) in Ea. discriminate. }
  rewrite (valid_params_not_null b V).
  do 2 eexists. split; [reflexivity |]. split; [apply next_id_older | reflexivity].
Qed.

Lemma filter_none (A : Type) (f : A -> bool) (l : list A) :
  (forall x, In x l -> f x = false) -> filter f l = [].
Proof.
  induction l as [| x l IH]; simpl; intros H; [reflexivity |].
  rewrite (H x (or_introl eq_refl)). apply IH. auto.
Qed.

(** X21: in a store the service reaches, a patient filter that the storage
    does not read as a number matches no appointment: the list answer is 200
    with no rows, whatever the date filter. *)
Theorem non_numeric_patient_filter_lists_nothing (s : database) (c : ascii) (rest : string)
    (date : option string) (log0 : list db_call) :
  reachable s ->
  numeric_affinity (String c rest) = None ->
  get_appointments (Some (String c rest)) date {| db := s; log := log0 |} =
    (Ok {| status := 200; body := AppointmentRows [] |},
     {| db := s;
        log := (log0 ++ [SelectAppointments (build_conditions (Some (String c rest)) date)])%list
     |}).
Proof.
  intros H N.
  destruct (reachable_well_formed H) as (ps & apps & P & A & _ & R).
  unfold get_appointments, catch, select_appointments, bind, record_call, read_db, ret.
  simpl. rewrite A, P.
  rewrite filter_none; [reflexivity |].
  intros [a p] I. apply in_join_patients in I as (Ia & _ & E).
  simpl. rewrite N. destruct (Appointment.patient_id a); try discriminate E. reflexivity.
Qed.

End Service.

(** * The properties at concrete requests and stores

    The coercion [integer_text] stands in for the storage's. *)

(** [9:30] passes the time rule although it is not of the form HH:MM. *)
Lemma one_digit_hour_passes :
  AppointmentTime_ok early_checkup = true /\ ~ spec_HH_MM "9:30".
Proof.
  split; [reflexivity |].
  intros (h1 & h2 & m1 & m2 & hh & mm & E & _). inversion E.
Qed.

(** C6: a date written with slashes passes the gate, and the create route
    then books the patient a second time for a day and time already taken,
    because the conflict check compares the date texts. *)
Theorem date_rule_accepts_slashes :
  AppointmentDate_ok slashed_checkup = true
  /\ validationResult slashed_checkup = []
  /\ fst (post_appointment integer_text slashed_checkup (serving booked_store)) =
     Ok {| status := 201;
           body := AppointmentCreated 2 (VInt 1) (VStr "2024/12/25") (VStr "10:30")
                     (VStr "Regular checkup") "Appointment created successfully" |}
  /\ appointments (db (snd (post_appointment integer_text slashed_checkup
                                             (serving booked_store)))) =
     Some [booking 1 "2024-12-25" "10:30"; booking 2 "2024/12/25" "10:30"].
Proof.
  repeat split; vm_compute; reflexivity.
Qed.

Lemma fresh_store_reachable : reachable integer_text fresh_store.
Proof.
  change fresh_store with (snd (initializeDatabase empty_database)). constructor.
Qed.

Lemma booked_store_reachable : reachable integer_text booked_store.
Proof.
  change booked_store
    with (db (snd (post_appointment integer_text checkup (serving fresh_store)))).
  apply reach_create, fresh_store_reachable.
Qed.

Lemma two_bookings_store_reachable : reachable integer_text two_bookings_store.
Proof.
  change two_bookings_store
    with (db (snd (post_appointment integer_text early_checkup (serving booked_store)))).
  apply reach_create, booked_store_reachable.
Qed.


Lemma sample_rows_ids_unique : NoDup (map Patient.id sample_rows).
Proof.
  simpl. repeat constructor; simpl; intuition discriminate.
Defined.

Lemma two_bookings_resolve :
  references_resolve sample_rows (table (appointments two_bookings_store)).
Proof.
  repeat constructor;
    (eexists; split; [left; reflexivity | reflexivity]).
Defined.

Lemma validation_reports_every_violation_witness :
  PatientId_ok nothing_supplied && AppointmentDate_ok nothing_supplied
    && AppointmentTime_ok nothing_supplied && Reason_ok nothing_supplied = false
  /\ exists details,
       post_appointment integer_text nothing_supplied (serving fresh_store) =
         (Ok {| status := 400; body := ValidationFailed "Validation failed" details |},
          serving fresh_store)
       /\ (PatientId_ok nothing_supplied = false <->
           reported details "PatientId" "PatientId must be a positive integer")
       /\ (AppointmentDate_ok nothing_supplied = false <->
           reported details "AppointmentDate"
                    "AppointmentDate must be a valid date (YYYY-MM-DD)")
       /\ (AppointmentTime_ok nothing_supplied = false <->
           reported details "AppointmentTime" "AppointmentTime must be in HH:MM format")
       /\ (Reason_ok nothing_supplied = false <->
           reported details "Reason" "Reason must be between 1 and 500 characters")
       /\ NoDup (map err_path details)
       /\ Forall (fun e => In (err_path e)
                              ["PatientId"; "AppointmentDate"; "AppointmentTime"; "Reason"])
                 details.
Proof.
  split; [reflexivity |].
  apply (validation_reports_every_violation integer_text nothing_supplied (serving fresh_store)).
  reflexivity.
Defined.

Lemma failed_check_creates_nothing_witness :
  (post_appointment integer_text unknown_patient (serving fresh_store) =
     (Ok {| status := 404;
            body := ErrorMessage "Patient not found" "Patient with ID 999999 does not exist" |},
      logged (serving fresh_store) [SelectPatientById (SInt 999999)])
   /\ db (logged (serving fresh_store) [SelectPatientById (SInt 999999)]) = fresh_store)
  /\ (validationResult unknown_patient = []
      /\ patients fresh_store = Some sample_rows
      /\ exists w',
           post_appointment integer_text unknown_patient (serving fresh_store) =
             (Ok {| status := 404;
                    body := ErrorMessage "Patient not found"
                              ("Patient with ID " ++ js_String (PatientId unknown_patient)
                               ++ " does not exist") |}, w')
           /\ db w' = fresh_store
           /\ List.length (table (appointments (db w'))) =
              List.length (table (appointments fresh_store))).
Proof.
  assert (E : post_appointment integer_text unknown_patient (serving fresh_store) =
              (Ok {| status := 404;
                     body := ErrorMessage "Patient not found"
                               "Patient with ID 999999 does not exist" |},
               logged (serving fresh_store) [SelectPatientById (SInt 999999)]))
    by (vm_compute; reflexivity).
  split.
  - split; [exact E |].
    apply (proj1 (failed_check_creates_nothing integer_text unknown_patient
                    (serving fresh_store)) _ _ E).
    left. reflexivity.
  - split; [reflexivity |]. split; [reflexivity |].
    apply (proj2 (failed_check_creates_nothing integer_text unknown_patient
                    (serving fresh_store)) sample_rows); [reflexivity | reflexivity |].
    intros x [<- | [<- | [<- | []]]]; reflexivity.
Defined.



Lemma get_appointment_by_text_id_witness :
  (patients (db (serving two_bookings_store)) = Some sample_rows
   /\ appointments (db (serving two_bookings_store)) =
      Some [booking 1 "2024-12-25" "10:30"; booking 2 "2024-12-25" "9:30"]
   /\ references_resolve sample_rows
        [booking 1 "2024-12-25" "10:30"; booking 2 "2024-12-25" "9:30"])
  /\ exists resp,
       get_appointment integer_text "abc" (serving two_bookings_store) =
         (Ok resp, logged (serving two_bookings_store) [SelectAppointmentById (SText "abc")])
       /\ ((forall a,
               In a [booking 1 "2024-12-25" "10:30"; booking 2 "2024-12-25" "9:30"] ->
               sql_eq (SInt (Appointment.id a)) (apply_affinity integer_text (SText "abc"))
               = false) ->
           resp = {| status := 404;
                     body := ErrorMessage "Appointment not found"
                               ("Appointment with ID " ++ "abc" ++ " does not exist") |})
       /\ ((exists a,
               In a [booking 1 "2024-12-25" "10:30"; booking 2 "2024-12-25" "9:30"]
               /\ sql_eq (SInt (Appointment.id a)) (apply_affinity integer_text (SText "abc"))
                  = true) ->
           exists a p,
             In a [booking 1 "2024-12-25" "10:30"; booking 2 "2024-12-25" "9:30"]
             /\ sql_eq (SInt (Appointment.id a)) (apply_affinity integer_text (SText "abc"))
                = true
             /\ In p sample_rows
             /\ sql_eq (Appointment.patient_id a) (SInt (Patient.id p)) = true
             /\ resp = {| status := 200;
                          body := AppointmentDetails
                                    {| dr_AppointmentId := Appointment.id a;
                                       dr_PatientId := Appointment.patient_id a;
                                       dr_AppointmentDate := Appointment.appointment_date a;
                                       dr_AppointmentTime := Appointment.appointment_time a;
                                       dr_Reason := Appointment.reason a;
                                       dr_status := Appointment.status a;
                                       dr_PatientName := Patient.name p;
                                       dr_PatientEmail := Patient.email p;
                                       dr_PatientPhone := Patient.phone p |} |}).
Proof.
  split.
  - split; [reflexivity |]. split; [reflexivity | exact two_bookings_resolve].
  - apply (get_appointment_by_text_id integer_text "abc" (serving two_bookings_store)
             (ps := sample_rows)
             (apps := [booking 1 "2024-12-25" "10:30"; booking 2 "2024-12-25" "9:30"])).
    + reflexivity.
    + reflexivity.
    + exact two_bookings_resolve.
Defined.

(** * The further properties at concrete requests and stores *)

Lemma early_checkup_created :
  post_appointment integer_text early_checkup (serving booked_store) =
    (Ok (created 2 early_checkup),
     {| db := two_bookings_store; log := create_calls early_checkup |}).
Proof. vm_compute. reflexivity. Defined.

Lemma created_id_is_fresh_witness :
  (post_appointment integer_text early_checkup (serving booked_store) =
     (Ok (created 2 early_checkup),
      {| db := two_bookings_store; log := create_calls early_checkup |})
   /\ appointments (db (serving booked_store)) = Some [booking 1 "2024-12-25" "10:30"])
  /\ (Forall (fun a => Appointment.id a < 2) [booking 1 "2024-12-25" "10:30"]
      /\ seq_appointments (db (serving booked_store)) < 2
      /\ seq_appointments
           (db {| db := two_bookings_store; log := create_calls early_checkup |}) = 2
      /\ exists row,
           appointments (db {| db := two_bookings_store; log := create_calls early_checkup |}) =
             Some ([booking 1 "2024-12-25" "10:30"] ++ [row])%list
           /\ Appointment.id row = 2).
Proof.
  split; [split; [exact early_checkup_created | reflexivity] |].
  exact (@created_id_is_fresh integer_text early_checkup (serving booked_store) _ 2 _ _ _ _ _
           [booking 1 "2024-12-25" "10:30"] early_checkup_created eq_refl).
Defined.

Lemma created_then_fetched_witness :
  (post_appointment integer_text early_checkup (serving booked_store) =
     (Ok (created 2 early_checkup),
      {| db := two_bookings_store; log := create_calls early_checkup |})
   /\ integer_text (string_of_Z 2) = Some (inject_Z 2))
  /\ exists p,
       In p (table (patients (db (serving booked_store))))
       /\ sql_eq (SInt (Patient.id p))
                 (apply_affinity integer_text (bind_param (PatientId early_checkup))) = true
       /\ get_appointment integer_text (string_of_Z 2)
            {| db := db {| db := two_bookings_store; log := create_calls early_checkup |};
               log := [] |} =
          (Ok {| status := 200;
                 body := AppointmentDetails
                   {| dr_AppointmentId := 2;
                      dr_PatientId :=
                        apply_affinity integer_text (bind_param (PatientId early_checkup));
                      dr_AppointmentDate :=
                        apply_affinity integer_text (bind_param (AppointmentDate early_checkup));
                      dr_AppointmentTime :=
                        apply_affinity integer_text (bind_param (AppointmentTime early_checkup));
                      dr_Reason := SText (trim (toString (Reason early_checkup)));
                      dr_status := Some "scheduled";
                      dr_PatientName := Patient.name p;
                      dr_PatientEmail := Patient.email p;
                      dr_PatientPhone := Patient.phone p |} |},
           {| db := db {| db := two_bookings_store; log := create_calls early_checkup |};
              log := ([] ++ [SelectAppointmentById (SText (string_of_Z 2))])%list |}).
Proof.
  split; [split; [exact early_checkup_created | reflexivity] |].
  exact (@created_then_fetched integer_text early_checkup (serving booked_store) _ 2 _ _ _ _ _
           [] early_checkup_created eq_refl).
Defined.

Lemma created_then_listed_witness :
  (post_appointment integer_text early_checkup (serving booked_store) =
     (Ok (created 2 early_checkup),
      {| db := two_bookings_store; log := create_calls early_checkup |})
   /\ NoDup (map Patient.id (table (patients (db (serving booked_store))))))
  /\ exists p rows rows',
       In p (table (patients (db (serving booked_store))))
       /\ sql_eq (SInt (Patient.id p))
                 (apply_affinity integer_text (bind_param (PatientId early_checkup))) = true
       /\ fst (get_appointments integer_text None None
                 {| db := db (serving booked_store); log := [] |}) =
          Ok {| status := 200; body := AppointmentRows rows |}
       /\ fst (get_appointments integer_text None None
                 {| db := db {| db := two_bookings_store; log := create_calls early_checkup |};
                    log := [] |}) =
          Ok {| status := 200; body := AppointmentRows rows' |}
       /\ Permutation rows'
            ({| lr_AppointmentId := 2;
                lr_PatientId :=
                  apply_affinity integer_text (bind_param (PatientId early_checkup));
                lr_AppointmentDate :=
                  apply_affinity integer_text (bind_param (AppointmentDate early_checkup));
                lr_AppointmentTime :=
                  apply_affinity integer_text (bind_param (AppointmentTime early_checkup));
                lr_Reason := SText (trim (toString (Reason early_checkup)));
                lr_status := Some "scheduled";
                lr_PatientName := Patient.name p |} :: rows)
       /\ Sorted (date_then_time) rows'.
Proof.
  split; [split; [exact early_checkup_created | exact sample_rows_ids_unique] |].
  exact (@created_then_listed integer_text early_checkup (serving booked_store) _ 2 _ _ _ _ _
           [] [] early_checkup_created sample_rows_ids_unique).
Defined.

Lemma ids_count_up_witness :
  reachable integer_text two_bookings_store
  /\ exists n, map Appointment.id (table (appointments two_bookings_store)) = first_ids n
               /\ seq_appointments two_bookings_store = Z.of_nat n.
Proof.
  split; [exact two_bookings_store_reachable |].
  exact (@ids_count_up integer_text two_bookings_store two_bookings_store_reachable).
Defined.


Lemma stored_rows_are_well_formed_witness :
  reachable integer_text two_bookings_store
  /\ Forall (fun a =>
               Appointment.status a = Some "scheduled"
               /\ exists r, Appointment.reason a = SText r
                            /\ trim r = r
                            /\ (1 <= String.length r <= 500)%nat)
            (table (appointments two_bookings_store)).
Proof.
  split; [exact two_bookings_store_reachable |].
  exact (@stored_rows_are_well_formed integer_text two_bookings_store
           two_bookings_store_reachable).
Defined.

Lemma reason_is_judged_trimmed_witness :
  (all_space "   " = true
   /\ Reason_ok {| PatientId := VInt 1; AppointmentDate := VStr "2024-12-25";
                   AppointmentTime := VStr "10:30"; Reason := VStr "   " |} = false)
  /\ trim (trim "  Regular checkup ") = trim "  Regular checkup "
  /\ (trim "  Regular checkup " = String "R" "egular checkup" /\ is_space "R" = false)
  /\ (trim "  Regular checkup " = "Regular checku" ++ String "p" "" /\ is_space "p" = false).
Proof.
  pose proof reason_is_judged_trimmed as (H1 & H2 & H3 & H4).
  split; [split; [reflexivity | exact (H1 "   " _ _ _ eq_refl)] |].
  split; [exact (H2 _) |].
  split; [split; [reflexivity | exact (H3 "  Regular checkup " _ _ eq_refl)] |].
  split; [reflexivity | exact (H4 "  Regular checkup " "Regular checku" _ eq_refl)].
Defined.

Lemma date_rule_accepts_calendar_dates_witness :
  (digit_val "2" = Some 2 /\ digit_val "0" = Some 0 /\ digit_val "4" = Some 4
   /\ digit_val "9" = Some 9 /\ ("-"%char = "-"%char \/ "-"%char = "/"%char))
  /\ (IsDate.isDate "2024-02-29" = true
      <-> 1 <= 10 * 0 + 2 <= 12
          /\ 1 <= 10 * 2 + 9
             <= IsDate.days_in_month (1000 * 2 + 100 * 0 + 10 * 2 + 4) (10 * 0 + 2)).
Proof.
  split; [repeat split; left; reflexivity |].
  exact (@date_rule_accepts_calendar_dates "2" "0" "2" "4" "0" "2" "2" "9" "-"
           2 0 2 4 0 2 2 9 eq_refl eq_refl eq_refl eq_refl eq_refl eq_refl eq_refl eq_refl
           (or_introl eq_refl)).
Defined.

Lemma two_bookings_listed (patientId date : option string) :
  patientId = None \/ patientId = Some "1" ->
  date = None \/ date = Some "2024-12-25" ->
  fst (get_appointments integer_text patientId date (serving two_bookings_store)) =
    Ok {| status := 200;
          body := AppointmentRows [listed_booking 1 "2024-12-25" "10:30";
                                   listed_booking 2 "2024-12-25" "9:30"] |}.
Proof.
  intros [-> | ->] [-> | ->]; vm_compute; reflexivity.
Defined.

Lemma filters_compose_witness :
  (fst (get_appointments integer_text (Some "1") (Some "2024-12-25")
          (serving two_bookings_store)) =
     Ok {| status := 200;
           body := AppointmentRows [listed_booking 1 "2024-12-25" "10:30";
                                    listed_booking 2 "2024-12-25" "9:30"] |}
   /\ fst (get_appointments integer_text (Some "1") None (serving two_bookings_store)) =
      Ok {| status := 200;
            body := AppointmentRows [listed_booking 1 "2024-12-25" "10:30";
                                     listed_booking 2 "2024-12-25" "9:30"] |}
   /\ fst (get_appointments integer_text None (Some "2024-12-25")
             (serving two_bookings_store)) =
      Ok {| status := 200;
            body := AppointmentRows [listed_booking 1 "2024-12-25" "10:30";
                                     listed_booking 2 "2024-12-25" "9:30"] |})
  /\ (Permutation [listed_booking 1 "2024-12-25" "10:30"; listed_booking 2 "2024-12-25" "9:30"]
        (filter (date_matches integer_text (Some "2024-12-25"))
                [listed_booking 1 "2024-12-25" "10:30"; listed_booking 2 "2024-12-25" "9:30"])
      /\ Permutation
           [listed_booking 1 "2024-12-25" "10:30"; listed_booking 2 "2024-12-25" "9:30"]
           (filter (patient_matches integer_text (Some "1"))
                   [listed_booking 1 "2024-12-25" "10:30";
                    listed_booking 2 "2024-12-25" "9:30"])).
Proof.
  pose proof (two_bookings_listed (or_intror eq_refl) (or_intror eq_refl)) as B.
  pose proof (two_bookings_listed (date := None) (or_intror eq_refl) (or_introl eq_refl)) as P.
  pose proof (two_bookings_listed (patientId := None) (or_introl eq_refl) (or_intror eq_refl))
    as D.
  split; [split; [exact B | split; [exact P | exact D]] |].
  exact (@filters_compose integer_text (Some "1") (Some "2024-12-25")
           (serving two_bookings_store) _ _ _ B P D).
Defined.

Lemma HH_MM_0930 : spec_HH_MM "09:30".
Proof.
  exists "0"%char, "9"%char, "3"%char, "0"%char, 9, 30.
  split; [reflexivity |].
  split; [exists 0, 9; repeat split |].
  split; [discriminate |].
  split; [exists 3, 0; repeat split | discriminate].
Defined.

Lemma HH_MM_1030 : spec_HH_MM "10:30".
Proof.
  exists "1"%char, "0"%char, "3"%char, "0"%char, 10, 30.
  split; [reflexivity |].
  split; [exists 1, 0; repeat split |].
  split; [discriminate |].
  split; [exists 3, 0; repeat split | discriminate].
Defined.

Lemma padded_times_listed_in_time_order_witness :
  (fst (get_appointments integer_text None None (serving padded_bookings_store)) =
     Ok {| status := 200;
           body := AppointmentRows [listed_booking 2 "2024-12-25" "09:30";
                                    listed_booking 1 "2024-12-25" "10:30"] |}
   /\ [listed_booking 2 "2024-12-25" "09:30"; listed_booking 1 "2024-12-25" "10:30"] =
      ([] ++ listed_booking 2 "2024-12-25" "09:30"
          :: listed_booking 1 "2024-12-25" "10:30" :: [])%list
   /\ lr_AppointmentDate (listed_booking 2 "2024-12-25" "09:30") =
      lr_AppointmentDate (listed_booking 1 "2024-12-25" "10:30")
   /\ lr_AppointmentTime (listed_booking 2 "2024-12-25" "09:30") = SText "09:30"
   /\ lr_AppointmentTime (listed_booking 1 "2024-12-25" "10:30") = SText "10:30"
   /\ spec_HH_MM "09:30" /\ spec_HH_MM "10:30"
   /\ minutes_of_day (SText "09:30") = Some 570
   /\ minutes_of_day (SText "10:30") = Some 630)
  /\ 570 <= 630.
Proof.
  assert (L : fst (get_appointments integer_text None None (serving padded_bookings_store)) =
              Ok {| status := 200;
                    body := AppointmentRows [listed_booking 2 "2024-12-25" "09:30";
                                             listed_booking 1 "2024-12-25" "10:30"] |})
    by (vm_compute; reflexivity).
  split.
  - split; [exact L |]. do 4 (split; [reflexivity |]).
    split; [exact HH_MM_0930 |]. split; [exact HH_MM_1030 |]. split; reflexivity.
  - exact (@padded_times_listed_in_time_order integer_text None None
             (serving padded_bookings_store) _ [] [] _ _ "09:30" "10:30" 570 630
             L eq_refl eq_refl eq_refl eq_refl HH_MM_0930 HH_MM_1030 eq_refl eq_refl).
Defined.

Lemma only_a_created_appointment_changes_the_store_witness :
  db (snd (server integer_text post_checkup (serving fresh_store))) <> db (serving fresh_store)
  /\ (rq_method post_checkup = POST
      /\ mounted (rq_path post_checkup) = Some []
      /\ exists b resp,
           rq_json post_checkup = Ok b
           /\ fst (post_appointment integer_text b (serving fresh_store)) = Ok resp
           /\ status resp = 201
           /\ fst (server integer_text post_checkup (serving fresh_store)) =
              Ok (Json 201 (FromRoute (body resp)))
           /\ db (snd (server integer_text post_checkup (serving fresh_store))) =
              db (snd (post_appointment integer_text b (serving fresh_store)))).
Proof.
  assert (N : db (snd (server integer_text post_checkup (serving fresh_store))) <>
              db (serving fresh_store))
    by (vm_compute; intros H; discriminate H).
  split; [exact N |].
  exact (@only_a_created_appointment_changes_the_store integer_text post_checkup
           (serving fresh_store) N).
Defined.

Lemma health_check_needs_no_store_witness :
  (rq_method get_health = GET /\ rq_json get_health = Ok nothing_supplied
   /\ rq_path get_health = ["Health"] /\ segment_is "health" "Health" = true)
  /\ server integer_text get_health (serving empty_database) =
     (Ok (Json 200 (Health "OK" "Appointment Management API is running")),
      serving empty_database).
Proof.
  split; [repeat split |].
  exact (@health_check_needs_no_store integer_text get_health nothing_supplied "Health"
           (serving empty_database) eq_refl eq_refl eq_refl eq_refl).
Defined.


Lemma free_slot_is_booked_witness :
  (validationResult early_checkup = []
   /\ patients (db (serving booked_store)) = Some sample_rows
   /\ appointments (db (serving booked_store)) = Some [booking 1 "2024-12-25" "10:30"]
   /\ sql_eq (SInt 1) (apply_affinity integer_text (bind_param (PatientId early_checkup)))
      = true
   /\ same_slot (apply_affinity integer_text (bind_param (PatientId early_checkup)))
                (apply_affinity integer_text (bind_param (AppointmentDate early_checkup)))
                (apply_affinity integer_text (bind_param (AppointmentTime early_checkup)))
                (booking 1 "2024-12-25" "10:30") = false)
  /\ exists i w',
       post_appointment integer_text early_checkup (serving booked_store) =
         (Ok {| status := 201;
                body := AppointmentCreated i (PatientId early_checkup)
                          (AppointmentDate early_checkup) (AppointmentTime early_checkup)
                          (VStr (trim (toString (Reason early_checkup))))
                          "Appointment created successfully" |}, w')
       /\ Forall (fun a => Appointment.id a < i) [booking 1 "2024-12-25" "10:30"]
       /\ appointments (db w') =
          Some ([booking 1 "2024-12-25" "10:30"] ++
                [{| Appointment.id := i;
                    Appointment.patient_id :=
                      apply_affinity integer_text (bind_param (PatientId early_checkup));
                    Appointment.appointment_date :=
                      apply_affinity integer_text (bind_param (AppointmentDate early_checkup));
                    Appointment.appointment_time :=
                      apply_affinity integer_text (bind_param (AppointmentTime early_checkup));
                    Appointment.reason := SText (trim (toString (Reason early_checkup)));
                    Appointment.status := Some "scheduled" |}])%list.
Proof.
  split; [repeat split |].
  refine (@free_slot_is_booked integer_text early_checkup (serving booked_store)
            sample_rows [booking 1 "2024-12-25" "10:30"]
            {| Patient.id := 1; Patient.name := "John Doe";
               Patient.email := Some "john@example.com"; Patient.phone := Some "555-0101" |}
            eq_refl eq_refl eq_refl (or_introl eq_refl) eq_refl _).
  intros a [<- | []]. reflexivity.
Defined.

Lemma non_numeric_patient_filter_lists_nothing_witness :
  (reachable integer_text two_bookings_store /\ integer_text "abc" = None)
  /\ get_appointments integer_text (Some "abc") None {| db := two_bookings_store; log := [] |} =
     (Ok {| status := 200; body := AppointmentRows [] |},
      {| db := two_bookings_store;
         log := ([] ++ [SelectAppointments (build_conditions (Some "abc") None)])%list |}).
Proof.
  split; [split; [exact two_bookings_store_reachable | reflexivity] |].
  exact (@non_numeric_patient_filter_lists_nothing integer_text two_bookings_store
           "a" "bc" None [] two_bookings_store_reachable eq_refl).
Defined.
